(** * check-python-versions: support for pyproject.toml

    A shallow embedding of [src/check_python_versions/sources/pyproject.py]
    and the properties of its extract/update operations.

    The module works on the tree that tomlkit builds for a TOML document.
    The Python code is duck typed: the same expression [k in x] is a key
    test on a table, a substring test on a string, a membership test on an
    array and a [TypeError] on a number.  The embedding keeps that: values
    are a tagged union, the Python operators are total functions into an
    error type, and the functions of the module are transcribed statement
    by statement on top of them. *)

From Stdlib Require Import String Ascii List Bool Arith ZArith Lia.
From Stdlib Require Import DecimalString.
Import ListNotations.
Set Warnings "-register-all".
Local Open Scope list_scope.
Local Open Scope string_scope.

(* ================================================================== *)
(** ** Python outcomes *)

(** The exceptions the module can meet. *)
Inductive exn : Type :=
| AttributeError   (* x.get on something that is not a mapping *)
| TypeError        (* [k in 3], ["abc"]["k"], iteration over a number *)
| KeyError         (* tomlkit's NonExistentKey *)
| ValueError       (* min() of an empty sequence *)
| ParseError       (* tomlkit could not parse the text *)
| OSError.         (* the file could not be opened *)

Inductive result (A : Type) : Type :=
| Ok (a : A)
| Raise (e : exn).
Arguments Ok {A} a.
Arguments Raise {A} e.

Definition rbind {A B} (r : result A) (k : A -> result B) : result B :=
  match r with
  | Ok a => k a
  | Raise e => Raise e
  end.

Declare Scope result_scope.
Delimit Scope result_scope with result.
Notation "'let?' x ':=' r 'in' k" := (rbind r (fun x => k))
  (at level 10, x name, r at level 100, k at level 200) : result_scope.
Local Open Scope result_scope.

(** Python's [a or b] on outcomes: [b] is evaluated only when [a] returned
    false. *)
Definition or_else (a b : result bool) : result bool :=
  let? x := a in if x then Ok true else b.

(* ================================================================== *)
(** ** The document tree *)

(** A tomlkit item.  [VString] carries the quoting style of the source text
    ([multiline] for the triple-quoted forms); the Python value of either
    form is a [str].  [VOther] stands for the remaining scalars (floats,
    dates, times): neither [str], [list] nor mapping, so the only thing the
    module can observe of them is their truth value.  A table keeps its
    keys in document order; TOML has no null. *)
Inductive value : Type :=
| VString (multiline : bool) (s : string)
| VInteger (z : Z)
| VBool (b : bool)
| VOther (truthy : bool)
| VArray (items : list value)
| VTable (entries : list (string * value)).

(** The top-level container of a document is a table. *)
Definition TOMLDocument : Type := list (string * value).

Fixpoint lookup (k : string) (t : list (string * value)) : option value :=
  match t with
  | [] => None
  | (k', v) :: rest => if String.eqb k k' then Some v else lookup k rest
  end.

(** [t[k] = v] on a table: an existing key keeps its place, a new key goes
    last. *)
Fixpoint assign (k : string) (v : value) (t : list (string * value))
  : list (string * value) :=
  match t with
  | [] => [(k, v)]
  | (k', v') :: rest =>
      if String.eqb k k' then (k', v) :: rest else (k', v') :: assign k v rest
  end.

(** [needle in s] on strings. *)
Fixpoint is_infix (needle s : string) : bool :=
  String.prefix needle s ||
  match s with
  | EmptyString => false
  | String _ rest => is_infix needle rest
  end.

Fixpoint chars (s : string) : list string :=
  match s with
  | EmptyString => []
  | String c rest => String c EmptyString :: chars rest
  end.

(** [x == needle] for an item [x] and a Python [str]. *)
Definition eq_str (needle : string) (x : value) : bool :=
  match x with
  | VString _ s => String.eqb s needle
  | _ => false
  end.

(** [needle in x]. *)
Definition py_in (needle : string) (x : value) : result bool :=
  match x with
  | VString _ s => Ok (is_infix needle s)
  | VArray items => Ok (existsb (eq_str needle) items)
  | VTable entries =>
      Ok (match lookup needle entries with Some _ => true | None => false end)
  | VInteger _ | VBool _ | VOther _ => Raise TypeError
  end.

(** [x.get(k, default)]. *)
Definition py_get (x : value) (k : string) (default : value) : result value :=
  match x with
  | VTable entries =>
      Ok (match lookup k entries with Some v => v | None => default end)
  | _ => Raise AttributeError
  end.

(** [x[k]] with a string key. *)
Definition py_getitem (x : value) (k : string) : result value :=
  match x with
  | VTable entries =>
      match lookup k entries with
      | Some v => Ok v
      | None => Raise KeyError
      end
  | _ => Raise TypeError
  end.

(** What [for y in x] ranges over: the items of an array, the keys of a
    table, the characters of a string. *)
Definition py_iter (x : value) : result (list value) :=
  match x with
  | VArray items => Ok items
  | VTable entries => Ok (map (fun kv => VString false (fst kv)) entries)
  | VString _ s => Ok (map (VString false) (chars s))
  | VInteger _ | VBool _ | VOther _ => Raise TypeError
  end.

(** [any(needle in y for y in ys)]: stops at the first hit, so a later
    item that cannot be searched goes unnoticed. *)
Fixpoint any_in (needle : string) (ys : list value) : result bool :=
  match ys with
  | [] => Ok false
  | y :: rest => or_else (py_in needle y) (any_in needle rest)
  end.

(** [bool(x)]. *)
Definition truthy (x : value) : bool :=
  match x with
  | VString _ s => negb (String.eqb s "")
  | VInteger z => negb (Z.eqb z 0)
  | VBool b => b
  | VOther t => t
  | VArray items => match items with [] => false | _ => true end
  | VTable entries => match entries with [] => false | _ => true end
  end.

Definition isinstance_list (x : value) : bool :=
  match x with VArray _ => true | _ => false end.

Definition isinstance_str (x : value) : bool :=
  match x with VString _ _ => true | _ => false end.

(* ================================================================== *)
(** ** Keywords *)

Definition PYPROJECT_TOML := "pyproject.toml".

Definition CLASSIFIERS := "classifiers".
Definition DEPENDENCIES := "dependencies".
Definition PYTHON := "python".
Definition PYTHON_REQUIRES := "requires-python".

Definition TOOL := "tool".
Definition POETRY := "poetry".
Definition BUILD_SYSTEM := "build-system".
Definition BUILD_BACKEND := "build-backend".
Definition REQUIRES := "requires".

Definition PROJECT := "project".
Definition SETUPTOOLS := "setuptools".

Definition FLIT := "flit".

(* ================================================================== *)
(** ** Schema detectors *)

(** [table] is a document, so [k in table], [table.get] and [table[k]] are
    the mapping operations. *)
Definition doc_has (k : string) (table : TOMLDocument) : bool :=
  match lookup k table with Some _ => true | None => false end.

Definition doc_get (table : TOMLDocument) (k : string) (default : value)
  : value :=
  match lookup k table with Some v => v | None => default end.

Definition doc_getitem (table : TOMLDocument) (k : string) : result value :=
  py_getitem (VTable table) k.

Definition is_poetry_toml (table : TOMLDocument) : result bool :=
  let? in_tool := py_in POETRY (doc_get table TOOL (VTable [])) in
  if in_tool then Ok true else
  if doc_has BUILD_SYSTEM table then
    let? bs := doc_getitem table BUILD_SYSTEM in
    let? backend := py_get bs BUILD_BACKEND (VString false "") in
    let? in_backend := py_in POETRY backend in
    if in_backend then Ok true else
    let? bs' := doc_getitem table BUILD_SYSTEM in
    let? requires := py_get bs' REQUIRES (VArray []) in
    let? xs := py_iter requires in
    let? in_requires := any_in POETRY xs in
    if in_requires then Ok true else Ok false
  else Ok false.

Definition is_setuptools_toml (table : TOMLDocument) : result bool :=
  let tool_check :=
    let? in_tool := py_in SETUPTOOLS (doc_get table TOOL (VTable [])) in
    if in_tool then Ok true else Ok false in
  if doc_has BUILD_SYSTEM table then
    let? bs := doc_getitem table BUILD_SYSTEM in
    let? backend := py_get bs BUILD_BACKEND (VString false "") in
    let? in_backend := py_in SETUPTOOLS backend in
    if in_backend then Ok true else
    let? bs' := doc_getitem table BUILD_SYSTEM in
    let? requires := py_get bs' REQUIRES (VArray []) in
    let? xs := py_iter requires in
    let? in_requires := any_in SETUPTOOLS xs in
    if in_requires then Ok true else tool_check
  else tool_check.

Definition is_flit_toml (table : TOMLDocument) : result bool :=
  let? in_tool := py_in FLIT (doc_get table TOOL (VTable [])) in
  if in_tool then Ok true else
  if doc_has BUILD_SYSTEM table then
    let? bs := doc_getitem table BUILD_SYSTEM in
    let? backend := py_get bs BUILD_BACKEND (VString false "") in
    let? in_backend := py_in FLIT backend in
    if in_backend then Ok true else
    let? bs' := doc_getitem table BUILD_SYSTEM in
    let? requires := py_get bs' REQUIRES (VArray []) in
    let? xs := py_iter requires in
    let? in_requires := any_in FLIT xs in
    if in_requires then Ok true else Ok false
  else Ok false.

(* ================================================================== *)
(** ** Reading the declarations out of a document *)

(** The functions return Python values: a plain [[]] is the empty array. *)
Definition _get_poetry_classifiers (table : TOMLDocument) : result value :=
  if negb (doc_has TOOL table) then Ok (VArray []) else
  let? tool := doc_getitem table TOOL in
  let? has_poetry := py_in POETRY tool in
  if negb has_poetry then Ok (VArray []) else
  let? poetry := py_getitem tool POETRY in
  let? has_classifiers := py_in CLASSIFIERS poetry in
  if negb has_classifiers then Ok (VArray []) else
  py_getitem poetry CLASSIFIERS.

Definition _get_setuptools_flit_classifiers (table : TOMLDocument)
  : result value :=
  if negb (doc_has PROJECT table) then Ok (VArray []) else
  let? project := doc_getitem table PROJECT in
  let? has_classifiers := py_in CLASSIFIERS project in
  if negb has_classifiers then Ok (VArray []) else
  py_getitem project CLASSIFIERS.

(** [is_setuptools_toml(table) or is_flit_toml(table)]. *)
Definition is_setuptools_or_flit (table : TOMLDocument) : result bool :=
  or_else (is_setuptools_toml table) (is_flit_toml table).

(** The body of [_get_pyproject_toml_classifiers] after [load_toml]. *)
Definition classifiers_of_table (table : TOMLDocument) : result value :=
  let _classifiers := VArray [] in
  let? poetry := is_poetry_toml table in
  let? _classifiers :=
    if poetry then _get_poetry_classifiers table else Ok _classifiers in
  let? other := is_setuptools_or_flit table in
  let? _classifiers :=
    if other then _get_setuptools_flit_classifiers table
    else Ok _classifiers in
  Ok _classifiers.

(** [None] is Python's [None]. *)
Definition _get_poetry_python_requires (table : TOMLDocument)
  : result (option value) :=
  if negb (doc_has TOOL table) then Ok None else
  let? tool := doc_getitem table TOOL in
  let? has_poetry := py_in POETRY tool in
  if negb has_poetry then Ok None else
  let? poetry := py_getitem tool POETRY in
  let? has_deps := py_in DEPENDENCIES poetry in
  if negb has_deps then Ok None else
  let? deps := py_getitem poetry DEPENDENCIES in
  let? has_python := py_in PYTHON deps in
  if negb has_python then Ok None else
  let? v := py_getitem deps PYTHON in
  Ok (Some v).

Definition _get_setuptools_flit_python_requires (table : TOMLDocument)
  : result (option value) :=
  if negb (doc_has PROJECT table) then Ok None else
  let? project := doc_getitem table PROJECT in
  let? has_requires := py_in PYTHON_REQUIRES project in
  if negb has_requires then Ok None else
  let? v := py_getitem project PYTHON_REQUIRES in
  Ok (Some v).

(** The body of [_get_pyproject_toml_python_requires] after [load_toml]. *)
Definition python_requires_of_table (table : TOMLDocument)
  : result (option value) :=
  let _python_requires := None in
  let? poetry := is_poetry_toml table in
  let? _python_requires :=
    if poetry then _get_poetry_python_requires table
    else Ok _python_requires in
  let? other := is_setuptools_or_flit table in
  let? _python_requires :=
    if other then _get_setuptools_flit_python_requires table
    else Ok _python_requires in
  Ok _python_requires.

(* ================================================================== *)
(** ** Writing a declaration into a document *)

(** [table[p1]...[pn][k] = v].  The walk to the parent uses [x[p]], which
    is a [KeyError] on a missing key and a [TypeError] on anything that is
    not a table; the assignment itself creates [k] when it is missing. *)
Fixpoint assign_path (path : list string) (k : string) (v : value)
    (t : list (string * value)) : result (list (string * value)) :=
  match path with
  | [] => Ok (assign k v t)
  | p :: rest =>
      match lookup p t with
      | None => Raise KeyError
      | Some (VTable sub) =>
          let? sub' := assign_path rest k v sub in
          Ok (assign p (VTable sub') t)
      | Some _ => Raise TypeError
      end
  end.

(** The lines an update returns.  The text is produced by tomlkit's
    [dumps], which is not part of this module: [DumpsSplit table] stands
    for [dumps(table).split('\n')] of the table as it is at that moment;
    [NoLines] is the literal [[]]. *)
Inductive FileLines : Type :=
| NoLines
| DumpsSplit (table : TOMLDocument).

(** The setters mutate the table they are given: they return it along with
    the lines. *)
Definition setter : Type :=
  TOMLDocument -> value -> result (TOMLDocument * option FileLines).

Definition set_and_dump (path : list string) (k : string) : setter :=
  fun table new_value =>
    let? table' := assign_path path k new_value table in
    Ok (table', Some (DumpsSplit table')).

Definition _set_poetry_classifiers : setter :=
  set_and_dump [TOOL; POETRY] CLASSIFIERS.

Definition _set_setuptools_flit_classifiers : setter :=
  set_and_dump [PROJECT] CLASSIFIERS.

Definition _set_poetry_python_requires : setter :=
  set_and_dump [TOOL; POETRY; DEPENDENCIES] PYTHON.

Definition _set_setuptools_flit_python_requires : setter :=
  set_and_dump [PROJECT] PYTHON_REQUIRES.

(** The common body of [_update_pyproject_toml_classifiers] and
    [_update_pyproject_python_requires] after [load_toml]: the second test
    and the second setter see the table as the first setter left it. *)
Definition update_table (init : option FileLines)
    (set_poetry set_other : setter) (table : TOMLDocument)
    (new_value : value) : result (option FileLines) :=
  let _updated_table := init in
  let? poetry := is_poetry_toml table in
  let? st :=
    if poetry then set_poetry table new_value
    else Ok (table, _updated_table) in
  let table := fst st in
  let _updated_table := snd st in
  let? other := is_setuptools_or_flit table in
  let? st :=
    if other then set_other table new_value
    else Ok (table, _updated_table) in
  Ok (snd st).

Definition update_classifiers_of_table :=
  update_table None _set_poetry_classifiers _set_setuptools_flit_classifiers.

Definition update_python_requires_of_table :=
  update_table (Some NoLines)
    _set_poetry_python_requires _set_setuptools_flit_python_requires.

(* ================================================================== *)
(** ** Versions and the range expression encoder *)

(** Modelled from the spec: the class [Version] of [versions.py], which is
    not part of the sources at hand.  A version is major.minor with an
    optional micro; it renders as ["major.minor"] or
    ["major.minor.micro"], and versions are ordered by their numeric
    components, a missing micro being lowest. *)
Record Version : Type := mkVersion {
  major : nat;
  minor : nat;
  micro : option nat
}.

Definition SortedVersionList : Type := list Version.

Definition string_of_nat (n : nat) : string :=
  NilEmpty.string_of_uint (Nat.to_uint n).

Definition render (v : Version) : string :=
  string_of_nat (major v) ++ "." ++ string_of_nat (minor v) ++
  match micro v with
  | None => ""
  | Some m => "." ++ string_of_nat m
  end.

Definition micro_rank (m : option nat) : nat :=
  match m with None => 0 | Some k => S k end.

Definition version_eqb (a b : Version) : bool :=
  Nat.eqb (major a) (major b) && Nat.eqb (minor a) (minor b) &&
  Nat.eqb (micro_rank (micro a)) (micro_rank (micro b)).

Definition version_leb (a b : Version) : bool :=
  Nat.ltb (major a) (major b) ||
  (Nat.eqb (major a) (major b) &&
   (Nat.ltb (minor a) (minor b) ||
    (Nat.eqb (minor a) (minor b) &&
     Nat.leb (micro_rank (micro a)) (micro_rank (micro b))))).

Definition version_in (v : Version) (vs : SortedVersionList) : bool :=
  existsb (version_eqb v) vs.

(** Modelled from the spec: [compute_python_requires] of [setup_py.py],
    which is not part of the sources at hand.  The expression is
    [>=<space><first>] followed by [!=<space><v>.*] for every known version
    [v] from the first one up to the largest known one that is not in the
    list, in ascending order, the clauses joined by [comma].  [known] is
    the ascending list of the versions that exist.  The spec leaves the
    empty list undefined; it is an error here. *)
Definition compute_python_requires (known : SortedVersionList)
    (new_versions : SortedVersionList) (comma space : string)
  : result string :=
  match new_versions with
  | [] => Raise ValueError
  | first :: _ =>
      let excluded :=
        filter (fun v => version_leb first v && negb (version_in v new_versions))
               known in
      Ok (String.concat comma
            ((">=" ++ space ++ render first) ::
             map (fun v => "!=" ++ space ++ render v ++ ".*") excluded))
  end.

(* ================================================================== *)
(** ** Files, streams and the error stream *)

(** What tomlkit's [load] makes of a text: a document or a [ParseError]. *)
Definition loaded : Type := result TOMLDocument.

Inductive io_event : Type :=
| Read       (* the stream was read to its end *)
| Seek0.     (* seek(0) *)

(** An open text stream, seen through tomlkit: [full] is what the whole
    text loads to, [pending] what the text from the current position to the
    end loads to.  Reading leaves the position at the end, where the
    remaining text is empty and loads to the empty document; [seek(0)]
    makes the whole text pending again.  [io_log] records what was done to
    the stream. *)
Record stream : Type := mkStream {
  full : loaded;
  pending : loaded;
  io_log : list io_event
}.

Record World : Type := mkWorld {
  files : list (string * loaded);   (* the file system, by path *)
  fp : stream;                      (* the stream a caller may pass *)
  stderr : list string              (* the lines written to stderr *)
}.

(** The classes [load_toml] tells apart among file objects. *)
Inductive file_class : Type :=
| StringIO
| TextIOWrapper
| OtherTextIO.

Inductive FileOrFilename : Type :=
| Filename (path : string)
| FileObject (c : file_class).

(** Computations on the world that may raise. *)
Definition M (A : Type) : Type := World -> result A * World.

Definition ret {A} (a : A) : M A := fun w => (Ok a, w).

Definition bind {A B} (m : M A) (k : A -> M B) : M B :=
  fun w =>
    match m w with
    | (Ok a, w') => k a w'
    | (Raise e, w') => (Raise e, w')
    end.

Definition lift {A} (r : result A) : M A := fun w => (r, w).

Declare Scope M_scope.
Delimit Scope M_scope with M.
Notation "x <- m ;; k" := (bind m (fun x => k))
  (at level 61, m at next level, right associativity) : M_scope.
Notation "m ;; k" := (bind m (fun _ => k))
  (at level 61, right associativity) : M_scope.
Local Open Scope M_scope.

(** Modelled from the spec: [warn] of [utils.py], which is not part of the
    sources at hand; a diagnostic is one line on the error stream. *)
Definition warn (msg : string) : M unit :=
  fun w => (Ok tt, mkWorld (files w) (fp w) (stderr w ++ [msg])%list).

(** Modelled from the spec: [is_file_object] of [utils.py], which is not
    part of the sources at hand; true of a file handle, false of a path. *)
Definition is_file_object (filename : FileOrFilename) : bool :=
  match filename with
  | Filename _ => false
  | FileObject _ => true
  end.

(** A file open for reading: one opened on a path, or the caller's
    stream. *)
Inductive handle : Type :=
| OnPath (path : string)
| TheStream.

(** Modelled from the spec: [open_file] of [utils.py], which is not part of
    the sources at hand; a file handle is used as it is, a path is opened
    afresh. *)
Definition open_file (filename : FileOrFilename) : M handle :=
  fun w =>
    match filename with
    | FileObject _ => (Ok TheStream, w)
    | Filename path =>
        match find (fun e => String.eqb path (fst e)) (files w) with
        | Some _ => (Ok (OnPath path), w)
        | None => (Raise OSError, w)
        end
    end.

(** tomlkit's [load]: reads the handle to its end and parses the text. *)
Definition load (h : handle) : M TOMLDocument :=
  fun w =>
    match h with
    | OnPath path =>
        match find (fun e => String.eqb path (fst e)) (files w) with
        | Some e => (snd e, w)
        | None => (Raise OSError, w)
        end
    | TheStream =>
        let s := fp w in
        (pending s,
         mkWorld (files w)
                 (mkStream (full s) (Ok []) (io_log s ++ [Read])%list)
                 (stderr w))
    end.

Definition seek0 : M unit :=
  fun w =>
    let s := fp w in
    (Ok tt,
     mkWorld (files w)
             (mkStream (full s) (full s) (io_log s ++ [Seek0])%list)
             (stderr w)).

Definition isinstance_StringIO (filename : FileOrFilename) : bool :=
  match filename with FileObject StringIO => true | _ => false end.

Definition isinstance_TextIOWrapper (filename : FileOrFilename) : bool :=
  match filename with FileObject TextIOWrapper => true | _ => false end.

Definition isinstance_filename (filename : FileOrFilename) : bool :=
  match filename with Filename _ => true | _ => false end.

Definition load_toml (filename : FileOrFilename) : M (option TOMLDocument) :=
  let table := None in
  table <-
    (if isinstance_filename filename || isinstance_StringIO filename then
       fp <- open_file filename ;;
       t <- load fp ;;
       ret (Some t)
     else ret table) ;;
  table <-
    (if isinstance_TextIOWrapper filename then
       t <- load TheStream ;;
       ret (Some t)
     else ret table) ;;
  ret table.

(** A function of the module applied to what [load_toml] returned: the
    first thing each of them does with [None] is [None.get], an
    [AttributeError]. *)
Definition on_table {A} (f : TOMLDocument -> result A)
    (table : option TOMLDocument) : M A :=
  match table with
  | Some t => lift (f t)
  | None => lift (Raise AttributeError)
  end.

Definition _get_pyproject_toml_classifiers (filename : FileOrFilename)
  : M value :=
  table <- load_toml filename ;;
  on_table classifiers_of_table table.

Definition _get_pyproject_toml_python_requires (filename : FileOrFilename)
  : M (option value) :=
  table <- load_toml filename ;;
  on_table python_requires_of_table table.

Definition _update_pyproject_toml_classifiers (filename : FileOrFilename)
    (new_value : value) : M (option FileLines) :=
  table <- load_toml filename ;;
  on_table (fun t => update_classifiers_of_table t new_value) table.

Definition _update_pyproject_python_requires (filename : FileOrFilename)
    (new_value : value) : M (option FileLines) :=
  table <- load_toml filename ;;
  on_table (fun t => update_python_requires_of_table t new_value) table.

(* ================================================================== *)
(** ** The public operations *)

Definition opt_truthy (x : option value) : bool :=
  match x with
  | None => false
  | Some v => truthy v
  end.

Definition opt_isinstance_str (x : option value) : bool :=
  match x with
  | None => false
  | Some v => isinstance_str v
  end.

(** The Python [str] behind a value that passed [isinstance(x, str)]. *)
Definition as_str (x : option value) : option string :=
  match x with
  | Some (VString _ s) => Some s
  | _ => None
  end.

(** A function that may write diagnostics and may raise, run in the
    world. *)
Definition emit {A} (r : list string * result A) : M A :=
  fun w => (snd r, mkWorld (files w) (fp w) (stderr w ++ fst r)%list).

Section Operations.

(** The versions that exist: the table of [versions.py], which the tests
    change through [fix_max_python_3_version]. *)
Variable known_versions : SortedVersionList.

(** The codecs of [setup_py.py], which are not part of the sources at
    hand.  They are ordinary Python functions of their arguments:
    [parse_python_requires] gets the [str] alone, and may write
    diagnostics of its own. *)
Variable parse_python_requires :
  string -> list string * result (option SortedVersionList).
Variable get_versions_from_classifiers : value -> result SortedVersionList.
Variable update_classifiers :
  value -> SortedVersionList -> result (list string).

Definition get_supported_python_versions (filename : FileOrFilename)
  : M SortedVersionList :=
  classifiers <- _get_pyproject_toml_classifiers filename ;;
  if negb (truthy classifiers) then
    ret []
  else if negb (isinstance_list classifiers) then
    warn "The value specified for classifiers is not an array" ;;
    ret []
  else
    lift (get_versions_from_classifiers classifiers).

Definition get_python_requires (pyproject_toml : FileOrFilename)
  : M (option SortedVersionList) :=
  python_requires <- _get_pyproject_toml_python_requires pyproject_toml ;;
  if negb (opt_truthy python_requires)
     || negb (opt_isinstance_str python_requires) then
    warn "The value specified for python dependency is not a string" ;;
    ret None
  else
    match as_str python_requires with
    | Some s => emit (parse_python_requires s)
    | None => ret None   (* not reached: the value is a str here *)
    end.

Definition update_supported_python_versions (filename : FileOrFilename)
    (new_versions : SortedVersionList) : M (option FileLines) :=
  classifiers <- _get_pyproject_toml_classifiers filename ;;
  if negb (isinstance_list classifiers) || negb (truthy classifiers) then
    warn "The value specified for classifiers is not an array" ;;
    ret None
  else
    new_classifiers <- lift (update_classifiers classifiers new_versions) ;;
    _update_pyproject_toml_classifiers filename
      (VArray (map (VString false) new_classifiers)).

Definition update_python_requires (filename : FileOrFilename)
    (new_versions : SortedVersionList) : M (option FileLines) :=
  python_requires <- _get_pyproject_toml_python_requires filename ;;
  match python_requires with
  | None => ret None
  | Some python_requires =>
      let comma := ", " in
      has_comma <- lift (py_in "," python_requires) ;;
      comma <-
        (if has_comma then
           has_comma_space <- lift (py_in ", " python_requires) ;;
           ret (if negb has_comma_space then "," else comma)
         else ret comma) ;;
      let space := "" in
      spaced <- lift (or_else (py_in "> " python_requires)
                              (py_in "= " python_requires)) ;;
      let space := if spaced then " " else space in
      new_requires <-
        lift (compute_python_requires known_versions new_versions
                comma space) ;;
      (if is_file_object filename then seek0 else ret tt) ;;
      _update_pyproject_python_requires filename
        (VString false new_requires)
  end.




End Operations.

(* ================================================================== *)
(** ** Scenario documents *)

Module Scenario.

Definition str (s : string) : value := VString false s.

Definition v27 : Version := mkVersion 2 7 None.
Definition v32 : Version := mkVersion 3 2 None.

(** The versions known when the largest Python 3 minor is [m]: 2.0 to 2.7
    and 3.0 to 3.m. *)
Definition known_up_to (m : nat) : SortedVersionList :=
  (map (fun k => mkVersion 2 k None) (seq 0 8) ++
   map (fun k => mkVersion 3 k None) (seq 0 (S m)))%list.

Definition flit_build_system : value :=
  VTable [(REQUIRES, VArray [str "flit_core >=3.2,<4"]);
          (BUILD_BACKEND, str "flit_core.buildapi")].

Definition setuptools_build_system : value :=
  VTable [(REQUIRES, VArray [str "setuptools"; str "setuptools-scm"]);
          (BUILD_BACKEND, str "setuptools.build_meta")].

(** A flit project with the given entries after [name]. *)
Definition flit_project (fields : list (string * value)) : TOMLDocument :=
  [(PROJECT, VTable (("name", str "foo") :: fields));
   (BUILD_SYSTEM, flit_build_system)].

(** [tool.poetry], [tool.setuptools] and [tool.flit] present as asked. *)
Definition tool_tables (poetry setuptools flit : bool) : TOMLDocument :=
  [(TOOL, VTable ((if poetry then [(POETRY, VTable [])] else []) ++
                  (if setuptools then [(SETUPTOOLS, VTable [])] else []) ++
                  (if flit then [(FLIT, VTable [])] else []))%list)].

(** [tool = 3] next to a setuptools build backend. *)
Definition tool_is_a_number : TOMLDocument :=
  [(TOOL, VInteger 3);
   (BUILD_SYSTEM, VTable [(BUILD_BACKEND, str "setuptools.build_meta")])].

(** A caller's stream positioned at the start of a text that loads to
    [d], nothing on disk, nothing written yet. *)
Definition fresh_stream (d : TOMLDocument) : World :=
  mkWorld [] (mkStream (Ok d) (Ok d) []) [].

(** [pyproject.toml] on disk loading to [d]. *)
Definition on_disk (d : TOMLDocument) : World :=
  mkWorld [(PYPROJECT_TOML, Ok d)] (mkStream (Ok []) (Ok []) []) [].

(** Codecs that decline everything, for scenarios that never get as far
    as calling them. *)
Definition no_parse (s : string)
  : list string * result (option SortedVersionList) := ([], Ok None).
Definition no_versions (c : value) : result SortedVersionList := Ok [].
Definition no_update (c : value) (vs : SortedVersionList)
  : result (list string) := Ok [].

End Scenario.

(* ================================================================== *)
(** ** Notions used to state the properties *)

(** The three tests of a detector, one definition each, in the words of
    the specification: the marker names a sub-table of [tool]; the marker
    occurs in [build-system.build-backend]; the marker occurs in an entry
    of [build-system.requires]. *)
Definition check_tool (marker : string) (table : TOMLDocument) : result bool :=
  py_in marker (doc_get table TOOL (VTable [])).

Definition check_backend (marker : string) (table : TOMLDocument)
  : result bool :=
  if doc_has BUILD_SYSTEM table then
    let? bs := doc_getitem table BUILD_SYSTEM in
    let? backend := py_get bs BUILD_BACKEND (VString false "") in
    py_in marker backend
  else Ok false.

Definition check_requires (marker : string) (table : TOMLDocument)
  : result bool :=
  if doc_has BUILD_SYSTEM table then
    let? bs := doc_getitem table BUILD_SYSTEM in
    let? requires := py_get bs REQUIRES (VArray []) in
    let? xs := py_iter requires in
    any_in marker xs
  else Ok false.

(** Tests made one after the other, stopping at the first that succeeds. *)
Fixpoint in_order (checks : list (result bool)) : result bool :=
  match checks with
  | [] => Ok false
  | c :: rest => or_else c (in_order rest)
  end.

(** The detector of the specification: tool, backend, requires. *)
Definition detect_tool_first (marker : string) (table : TOMLDocument)
  : result bool :=
  in_order [check_tool marker table;
            check_backend marker table;
            check_requires marker table].

(** The same tests with the [tool] table looked at last. *)
Definition detect_tool_last (marker : string) (table : TOMLDocument)
  : result bool :=
  in_order [check_backend marker table;
            check_requires marker table;
            check_tool marker table].

(** The source [f] is one [load_toml] reads, and in the world [w] it loads
    to the document [d]. *)
Definition holds (f : FileOrFilename) (w : World) (d : TOMLDocument) : Prop :=
  match f with
  | Filename path =>
      option_map snd (find (fun e => String.eqb path (fst e)) (files w))
      = Some (Ok d)
  | FileObject StringIO | FileObject TextIOWrapper => pending (fp w) = Ok d
  | FileObject OtherTextIO => False
  end.

(** The world once [f] has been read: a path leaves no trace, a stream is
    at its end. *)
Definition after_load (f : FileOrFilename) (w : World) : World :=
  match f with
  | Filename _ => w
  | FileObject _ =>
      mkWorld (files w)
              (mkStream (full (fp w)) (Ok []) (io_log (fp w) ++ [Read])%list)
              (stderr w)
  end.

Definition with_stderr (w : World) (lines : list string) : World :=
  mkWorld (files w) (fp w) lines.

(** The field [k] under the tables [path] is simply absent: walking down
    from the document, a segment or the field itself is missing from a
    table (and nothing on the way is something other than a table). *)
Fixpoint absent_at (path : list string) (k : string)
    (t : list (string * value)) : bool :=
  match path with
  | [] => match lookup k t with None => true | Some _ => false end
  | p :: rest =>
      match lookup p t with
      | None => true
      | Some (VTable sub) => absent_at rest k sub
      | Some _ => false
      end
  end.

(** The field is simply absent at the location the detectors select: the
    [project] table when setuptools or flit is detected, [tool.poetry]
    when only poetry is, and no location at all when nothing is
    detected. *)
Definition field_absent (poetry_path : list string)
    (poetry_key project_key : string) (bp bo : bool) (d : TOMLDocument)
  : bool :=
  if bo then absent_at [PROJECT] project_key d
  else if bp then absent_at poetry_path poetry_key d
  else true.

Definition msg_not_an_array : string :=
  "The value specified for classifiers is not an array".

Definition msg_not_a_string : string :=
  "The value specified for python dependency is not a string".

Definition keeps_stderr {A} (m : M A) : Prop :=
  forall w, stderr (snd (m w)) = stderr w.

Definition keeps_stream {A} (m : M A) : Prop :=
  forall w, fp (snd (m w)) = fp w.

(** The separator and the spacing [update_python_requires] reads off the
    existing expression. *)
Definition comma_style (s : string) : string :=
  if is_infix "," s && negb (is_infix ", " s) then "," else ", ".

Definition space_style (s : string) : string :=
  if is_infix "> " s || is_infix "= " s then " " else "".

(** The world after the first read and, for a stream, the [seek(0)]. *)
Definition rewound (f : FileOrFilename) (w : World) : World :=
  snd ((if is_file_object f then seek0 else ret tt) (after_load f w)).

Module Scenario_requires.

(** The flit project of the tests with [requires-python = s]. *)
Definition project_requiring (s : value) : TOMLDocument :=
  Scenario.flit_project [(PYTHON_REQUIRES, s)].

Definition old_requires : string := ">=2.7,!=3.0.*".
Definition new_requires : string := ">=2.7,!=3.0.*,!=3.1.*".
Definition new_requires_3_11 : string :=
  ">=2.7,!=3.0.*,!=3.1.*,!=3.3.*,!=3.4.*,!=3.5.*,!=3.6.*,!=3.7.*,!=3.8.*,!=3.9.*,!=3.10.*,!=3.11.*".

Definition target : SortedVersionList := [Scenario.v27; Scenario.v32].

Definition before : World :=
  Scenario.fresh_stream (project_requiring (Scenario.str old_requires)).

End Scenario_requires.

(** Texts without a space. *)
Definition has_space (s : string) : bool := is_infix " " s.

Module Scenario_multiline.

(** [requires-python] given between triple quotes. *)
Definition old_requires : string := ">=2.7, !=3.0.*".

Definition project : TOMLDocument :=
  Scenario_requires.project_requiring (VString true old_requires).

Definition before : World := Scenario.fresh_stream project.

Definition new_requires : string := ">=2.7, !=3.0.*, !=3.1.*".


End Scenario_multiline.

(** The value at [t[p1]...[pn][k]], when every step is a table that has
    the key. *)
Fixpoint get_path (path : list string) (k : string)
    (t : list (string * value)) : option value :=
  match path with
  | [] => lookup k t
  | p :: rest =>
      match lookup p t with
      | Some (VTable sub) => get_path rest k sub
      | _ => None
      end
  end.

Module Scenario_both.

(** A setuptools project that also carries a [tool.poetry] table. *)
Definition poetry_table (python : string) : value :=
  VTable [("name", Scenario.str "foo");
          (CLASSIFIERS,
           VArray [Scenario.str "Programming Language :: Python :: 2.7"]);
          (DEPENDENCIES, VTable [(PYTHON, Scenario.str python)])].

Definition project_table (requires : string) : value :=
  VTable [("name", Scenario.str "foo");
          (CLASSIFIERS,
           VArray [Scenario.str "Programming Language :: Python :: 3.6"]);
          (PYTHON_REQUIRES, Scenario.str requires)].

Definition document (python requires : string) : TOMLDocument :=
  [(TOOL, VTable [(POETRY, poetry_table python)]);
   (PROJECT, project_table requires);
   (BUILD_SYSTEM, Scenario.setuptools_build_system)].

Definition before : World := Scenario.fresh_stream (document "^3.6" ">=3.6").

Definition v37 : Version := mkVersion 3 7 None.

(** A project that names poetry and setuptools in its build requirements
    and has no [tool] table. *)
Definition no_tool_table : TOMLDocument :=
  [(PROJECT, VTable [(PYTHON_REQUIRES, Scenario.str ">=3.6")]);
   (BUILD_SYSTEM,
    VTable [(REQUIRES,
             VArray [Scenario.str "poetry-core"; Scenario.str "setuptools"])])].

End Scenario_both.

(** A document of the expected shape: [tool], [tool.poetry],
    [tool.poetry.dependencies], [project] and [build-system] are tables
    where they are present, [build-backend] is a string and [requires] an
    array of strings. *)
Definition table_or_absent (o : option value) : bool :=
  match o with
  | None => true
  | Some (VTable _) => true
  | Some _ => false
  end.

Definition tool_well_shaped (d : TOMLDocument) : bool :=
  match lookup TOOL d with
  | None => true
  | Some (VTable tool) =>
      match lookup POETRY tool with
      | None => true
      | Some (VTable poetry) => table_or_absent (lookup DEPENDENCIES poetry)
      | Some _ => false
      end
  | Some _ => false
  end.

Definition build_system_well_shaped (d : TOMLDocument) : bool :=
  match lookup BUILD_SYSTEM d with
  | None => true
  | Some (VTable bs) =>
      match lookup BUILD_BACKEND bs with
      | None => true
      | Some (VString _ _) => true
      | Some _ => false
      end &&
      match lookup REQUIRES bs with
      | None => true
      | Some (VArray items) => forallb isinstance_str items
      | Some _ => false
      end
  | Some _ => false
  end.

Definition well_shaped (d : TOMLDocument) : bool :=
  tool_well_shaped d && table_or_absent (lookup PROJECT d) &&
  build_system_well_shaped d.

(** The plain test behind [needle in x] for an entry of [requires]. *)
Definition mentions (marker : string) (x : value) : bool :=
  match x with
  | VString _ s => is_infix marker s
  | _ => false
  end.

Module Scenario_extra.

(** [project] declares both fields, and nothing names a build tool. *)
Definition no_build_tool : TOMLDocument :=
  [(PROJECT,
    VTable [("name", Scenario.str "foo");
            (CLASSIFIERS,
             VArray [Scenario.str "Programming Language :: Python :: 3.6"]);
            (PYTHON_REQUIRES, Scenario.str ">=3.6")])].

(** The flit project of the tests with its classifier. *)
Definition flit_with_classifiers : TOMLDocument :=
  Scenario.flit_project
    [(CLASSIFIERS,
      VArray [Scenario.str "Programming Language :: Python :: 3.6"])].

(** A poetry project. *)
Definition poetry_project : TOMLDocument :=
  [(TOOL,
    VTable [(POETRY,
             VTable [("name", Scenario.str "foo");
                     (CLASSIFIERS,
                      VArray [Scenario.str
                                "Programming Language :: Python :: 3.6"]);
                     (DEPENDENCIES,
                      VTable [(PYTHON, Scenario.str "^3.6")])])]);
   (BUILD_SYSTEM,
    VTable [(REQUIRES, VArray [Scenario.str "poetry-core>=1.0.0"]);
            (BUILD_BACKEND, Scenario.str "poetry.core.masonry.api")])].

(** [requires] given as one string instead of an array. *)
Definition requires_is_a_string : TOMLDocument :=
  [(BUILD_SYSTEM, VTable [(REQUIRES, Scenario.str "setuptools")])].

(** A stand-in for [update_classifiers] that returns the classifiers of
    3.7 and 3.8, as in [test_update_supported_python_versions_flit]. *)
Definition update_to_37_38 (c : value) (vs : SortedVersionList)
  : result (list string) :=
  Ok ["Programming Language :: Python :: 3.7";
      "Programming Language :: Python :: 3.8"].

Definition new_classifiers : value :=
  VArray [Scenario.str "Programming Language :: Python :: 3.7";
          Scenario.str "Programming Language :: Python :: 3.8"].


End Scenario_extra.

(** The [tool.poetry] table of the poetry project with its classifiers
    replaced. *)
Definition assign_classifiers_in (c : value) : value :=
  VTable [("name", Scenario.str "foo");
          (CLASSIFIERS, c);
          (DEPENDENCIES, VTable [(PYTHON, Scenario.str "^3.6")])].

(** The source [f] loads to [d] now and, for a stream, also after a
    [seek(0)]: the stream is at its start. *)
Definition at_start (f : FileOrFilename) (w : World) (d : TOMLDocument)
  : Prop :=
  holds f w d /\
  match f with
  | Filename _ => True
  | FileObject _ => full (fp w) = Ok d
  end.

(* ================================================================== *)
(** * Properties *)

(* ================================================================== *)
(** ** The schema detectors *)

(** Case analysis on the next outcome or test a goal is waiting for. *)
Ltac case_outcome :=
  match goal with
  | |- context [rbind ?r _] =>
      lazymatch r with
      | Ok _ => fail
      | Raise _ => fail
      | context [rbind _ _] => fail
      | context [if _ then _ else _] => fail
      | _ => destruct r
      end
  | |- context [if ?b then _ else _] =>
      lazymatch b with
      | true => fail
      | false => fail
      | context [if _ then _ else _] => fail
      | _ => destruct b
      end
  end.

Ltac by_outcomes := repeat (simpl; try reflexivity; case_outcome).

Lemma or_else_false_r (a : result bool) :
  or_else a (Ok false) = a.
Proof. destruct a as [[|]|e]; reflexivity. Qed.

Lemma if_same_bool (b : bool) :
  (if b then Ok true else Ok false) = Ok b.
Proof. destruct b; reflexivity. Qed.

Lemma in_order_all_ok (a b c : bool) :
  in_order [Ok a; Ok b; Ok c] = Ok (a || b || c).
Proof. destruct a, b, c; reflexivity. Qed.

(** With a test first, then the two [build-system] tests. *)
Lemma tool_first_unfold (marker : string) (table : TOMLDocument)
    (body : result bool) :
  body =
    (let? in_tool := py_in marker (doc_get table TOOL (VTable [])) in
     if in_tool then Ok true else
     if doc_has BUILD_SYSTEM table then
       let? bs := doc_getitem table BUILD_SYSTEM in
       let? backend := py_get bs BUILD_BACKEND (VString false "") in
       let? in_backend := py_in marker backend in
       if in_backend then Ok true else
       let? bs' := doc_getitem table BUILD_SYSTEM in
       let? requires := py_get bs' REQUIRES (VArray []) in
       let? xs := py_iter requires in
       let? in_requires := any_in marker xs in
       if in_requires then Ok true else Ok false
     else Ok false) ->
  body = detect_tool_first marker table.
Proof.
  intros ->.
  unfold detect_tool_first, in_order, check_tool, check_backend,
    check_requires, or_else.
  by_outcomes.
Qed.

Lemma is_poetry_toml_in_order (table : TOMLDocument) :
  is_poetry_toml table = detect_tool_first POETRY table.
Proof. apply tool_first_unfold. reflexivity. Qed.

Lemma is_flit_toml_in_order (table : TOMLDocument) :
  is_flit_toml table = detect_tool_first FLIT table.
Proof. apply tool_first_unfold. reflexivity. Qed.

Lemma is_setuptools_toml_in_order (table : TOMLDocument) :
  is_setuptools_toml table = detect_tool_last SETUPTOOLS table.
Proof.
  unfold is_setuptools_toml, detect_tool_last, in_order, check_tool,
    check_backend, check_requires, or_else.
  by_outcomes.
Qed.

(** C2 (as amended).  [is_poetry_toml] and [is_flit_toml] make the three
    tests in the order tool sub-table, build backend, build requirements;
    [is_setuptools_toml] makes the two build-system tests first and looks
    at the tool sub-table last.  Each stops at the first test that
    succeeds, and on a document where all three tests can be made the
    detector returns true exactly when at least one of them succeeds. *)
Theorem detectors_check_in_order (table : TOMLDocument) :
  is_poetry_toml table = detect_tool_first POETRY table /\
  is_flit_toml table = detect_tool_first FLIT table /\
  is_setuptools_toml table = detect_tool_last SETUPTOOLS table /\
  (forall marker a b c,
     check_tool marker table = Ok a ->
     check_backend marker table = Ok b ->
     check_requires marker table = Ok c ->
     detect_tool_first marker table = Ok (a || b || c) /\
     detect_tool_last marker table = Ok (a || b || c)).
Proof.
  split; [apply is_poetry_toml_in_order|].
  split; [apply is_flit_toml_in_order|].
  split; [apply is_setuptools_toml_in_order|].
  intros marker a b c Ha Hb Hc.
  unfold detect_tool_first, detect_tool_last.
  rewrite Ha, Hb, Hc.
  split; [apply in_order_all_ok|].
  destruct a, b, c; reflexivity.
Qed.

(** On the flit project of the tests the tool test fails and the two
    build-system tests succeed. *)
Lemma detectors_check_in_order_witness :
  is_flit_toml (Scenario.flit_project []) = Ok true.
Proof.
  destruct (detectors_check_in_order (Scenario.flit_project []))
    as [_ [Hflit [_ Hall]]].
  rewrite Hflit.
  apply (Hall FLIT false true true); reflexivity.
Defined.

(** C2, as stated, fails for [is_setuptools_toml]: with [tool = 3] next to
    a setuptools build backend the detector answers true from the build
    backend, where the order tool, backend, requirements stops with a
    [TypeError] at the tool test. *)
Lemma setuptools_looks_at_tool_last :
  is_setuptools_toml Scenario.tool_is_a_number = Ok true /\
  detect_tool_first SETUPTOOLS Scenario.tool_is_a_number = Raise TypeError /\
  is_setuptools_toml Scenario.tool_is_a_number <>
    detect_tool_first SETUPTOOLS Scenario.tool_is_a_number.
Proof.
  split; [reflexivity|].
  split; [reflexivity|].
  discriminate.
Qed.

(** C3.  The detectors are independent predicates of the document: the
    document with both [tool.poetry] and [tool.setuptools] is accepted by
    [is_poetry_toml] and by [is_setuptools_toml], and every combination of
    answers of the three detectors is given by some document, so no answer
    is determined by another. *)
Theorem detectors_are_independent :
  (is_poetry_toml (Scenario.tool_tables true true false) = Ok true /\
   is_setuptools_toml (Scenario.tool_tables true true false) = Ok true) /\
  (forall a b c : bool, exists table,
     is_poetry_toml table = Ok a /\
     is_setuptools_toml table = Ok b /\
     is_flit_toml table = Ok c).
Proof.
  split; [split; reflexivity|].
  intros a b c.
  exists (Scenario.tool_tables a b c).
  destruct a, b, c; repeat split; reflexivity.
Qed.

(* ================================================================== *)
(** ** Loading *)

Lemma load_toml_holds (f : FileOrFilename) (w : World) (d : TOMLDocument) :
  holds f w d -> load_toml f w = (Ok (Some d), after_load f w).
Proof.
  destruct f as [path|[| |]]; simpl; intros H.
  - unfold load_toml, bind, open_file, load, ret; simpl.
    destruct (find (fun e => String.eqb path (fst e)) (files w))
      as [[k r]|] eqn:E; simpl in H; [|discriminate].
    injection H as ->. cbn. rewrite ?E. reflexivity.
  - unfold load_toml, bind, open_file, load, ret; simpl.
    rewrite H. reflexivity.
  - unfold load_toml, bind, open_file, load, ret; simpl.
    rewrite H. reflexivity.
  - contradiction.
Qed.

Lemma after_load_stderr (f : FileOrFilename) (w : World) :
  stderr (after_load f w) = stderr w.
Proof. destruct f; reflexivity. Qed.

Lemma get_classifiers_holds (f : FileOrFilename) (w : World)
    (d : TOMLDocument) :
  holds f w d ->
  _get_pyproject_toml_classifiers f w
  = (classifiers_of_table d, after_load f w).
Proof.
  intros H. unfold _get_pyproject_toml_classifiers, bind.
  rewrite (load_toml_holds _ _ _ H). reflexivity.
Qed.

Lemma get_python_requires_holds (f : FileOrFilename) (w : World)
    (d : TOMLDocument) :
  holds f w d ->
  _get_pyproject_toml_python_requires f w
  = (python_requires_of_table d, after_load f w).
Proof.
  intros H. unfold _get_pyproject_toml_python_requires, bind.
  rewrite (load_toml_holds _ _ _ H). reflexivity.
Qed.

(* ================================================================== *)
(** ** Absent fields *)

Ltac case_lookup H :=
  match type of H with
  | context [lookup ?k ?t] =>
      let E := fresh "E" in
      destruct (lookup k t) as [[]|] eqn:E; simpl in H; try discriminate H
  end.

Lemma absent_setuptools_flit_classifiers (d : TOMLDocument) :
  absent_at [PROJECT] CLASSIFIERS d = true ->
  _get_setuptools_flit_classifiers d = Ok (VArray []).
Proof.
  unfold _get_setuptools_flit_classifiers, doc_has, doc_getitem, py_getitem.
  simpl. intros H. case_lookup H; [|reflexivity].
  simpl. case_lookup H. reflexivity.
Qed.

Lemma absent_poetry_classifiers (d : TOMLDocument) :
  absent_at [TOOL; POETRY] CLASSIFIERS d = true ->
  _get_poetry_classifiers d = Ok (VArray []).
Proof.
  unfold _get_poetry_classifiers, doc_has, doc_getitem, py_getitem.
  simpl. intros H. case_lookup H; [|reflexivity].
  simpl. case_lookup H; [|reflexivity].
  simpl. case_lookup H. reflexivity.
Qed.

Lemma absent_setuptools_flit_python_requires (d : TOMLDocument) :
  absent_at [PROJECT] PYTHON_REQUIRES d = true ->
  _get_setuptools_flit_python_requires d = Ok None.
Proof.
  unfold _get_setuptools_flit_python_requires, doc_has, doc_getitem,
    py_getitem.
  simpl. intros H. case_lookup H; [|reflexivity].
  simpl. case_lookup H. reflexivity.
Qed.

Lemma absent_poetry_python_requires (d : TOMLDocument) :
  absent_at [TOOL; POETRY; DEPENDENCIES] PYTHON d = true ->
  _get_poetry_python_requires d = Ok None.
Proof.
  unfold _get_poetry_python_requires, doc_has, doc_getitem, py_getitem.
  simpl. intros H. case_lookup H; [|reflexivity].
  simpl. case_lookup H; [|reflexivity].
  simpl. case_lookup H; [|reflexivity].
  simpl. case_lookup H. reflexivity.
Qed.

Lemma absent_classifiers_of_table (d : TOMLDocument) (bp bo : bool) :
  is_poetry_toml d = Ok bp ->
  is_setuptools_or_flit d = Ok bo ->
  absent_at [TOOL; POETRY] CLASSIFIERS d = true ->
  absent_at [PROJECT] CLASSIFIERS d = true ->
  classifiers_of_table d = Ok (VArray []).
Proof.
  intros Hp Ho Hap Has. unfold classifiers_of_table.
  rewrite Hp, Ho, (absent_poetry_classifiers _ Hap),
    (absent_setuptools_flit_classifiers _ Has).
  destruct bp, bo; reflexivity.
Qed.

Lemma absent_python_requires_of_table (d : TOMLDocument) (bp bo : bool) :
  is_poetry_toml d = Ok bp ->
  is_setuptools_or_flit d = Ok bo ->
  absent_at [TOOL; POETRY; DEPENDENCIES] PYTHON d = true ->
  absent_at [PROJECT] PYTHON_REQUIRES d = true ->
  python_requires_of_table d = Ok None.
Proof.
  intros Hp Ho Hap Has. unfold python_requires_of_table.
  rewrite Hp, Ho, (absent_poetry_python_requires _ Hap),
    (absent_setuptools_flit_python_requires _ Has).
  destruct bp, bo; reflexivity.
Qed.

(** What the four operations do once the lookup has found nothing. *)
Lemma extract_classifiers_falsy gv f w d c :
  holds f w d ->
  classifiers_of_table d = Ok c ->
  truthy c = false ->
  get_supported_python_versions gv f w = (Ok [], after_load f w).
Proof.
  intros H Hc Ht. unfold get_supported_python_versions, bind.
  rewrite (get_classifiers_holds _ _ _ H), Hc, Ht. reflexivity.
Qed.

Lemma update_classifiers_refused uc f w d c vs :
  holds f w d ->
  classifiers_of_table d = Ok c ->
  isinstance_list c = false \/ truthy c = false ->
  update_supported_python_versions uc f vs w
  = (Ok None,
     with_stderr (after_load f w) (stderr w ++ [msg_not_an_array])%list).
Proof.
  intros H Hc Hbad. unfold update_supported_python_versions, bind.
  rewrite (get_classifiers_holds _ _ _ H), Hc.
  assert (negb (isinstance_list c) || negb (truthy c) = true) as ->.
  { destruct Hbad as [-> | ->]; [reflexivity | apply orb_true_r]. }
  unfold warn, ret, with_stderr. rewrite after_load_stderr. reflexivity.
Qed.

Lemma extract_requires_refused ppr f w d r :
  holds f w d ->
  python_requires_of_table d = Ok r ->
  opt_truthy r = false \/ opt_isinstance_str r = false ->
  get_python_requires ppr f w
  = (Ok None,
     with_stderr (after_load f w) (stderr w ++ [msg_not_a_string])%list).
Proof.
  intros H Hr Hbad. unfold get_python_requires, bind.
  rewrite (get_python_requires_holds _ _ _ H), Hr.
  assert (negb (opt_truthy r) || negb (opt_isinstance_str r) = true) as ->.
  { destruct Hbad as [-> | ->]; [reflexivity | apply orb_true_r]. }
  unfold warn, ret, with_stderr. rewrite after_load_stderr. reflexivity.
Qed.

Lemma update_requires_nothing known f w d vs :
  holds f w d ->
  python_requires_of_table d = Ok None ->
  update_python_requires known f vs w = (Ok None, after_load f w).
Proof.
  intros H Hr. unfold update_python_requires, bind.
  rewrite (get_python_requires_holds _ _ _ H), Hr. reflexivity.
Qed.

Lemma selected_classifiers_absent d bp bo :
  is_poetry_toml d = Ok bp ->
  is_setuptools_or_flit d = Ok bo ->
  field_absent [TOOL; POETRY] CLASSIFIERS CLASSIFIERS bp bo d = true ->
  (bp = true -> bo = true -> exists c, _get_poetry_classifiers d = Ok c) ->
  classifiers_of_table d = Ok (VArray []).
Proof.
  intros Hp Ho Ha Hret. unfold classifiers_of_table. rewrite Hp, Ho.
  unfold field_absent in Ha. destruct bo, bp; cbn [rbind].
  - destruct (Hret eq_refl eq_refl) as [c ->]. cbn [rbind].
    rewrite (absent_setuptools_flit_classifiers _ Ha). reflexivity.
  - rewrite (absent_setuptools_flit_classifiers _ Ha). reflexivity.
  - rewrite (absent_poetry_classifiers _ Ha). reflexivity.
  - reflexivity.
Qed.

Lemma selected_python_requires_absent d bp bo :
  is_poetry_toml d = Ok bp ->
  is_setuptools_or_flit d = Ok bo ->
  field_absent [TOOL; POETRY; DEPENDENCIES] PYTHON PYTHON_REQUIRES bp bo d
  = true ->
  (bp = true -> bo = true -> exists r, _get_poetry_python_requires d = Ok r) ->
  python_requires_of_table d = Ok None.
Proof.
  intros Hp Ho Ha Hret. unfold python_requires_of_table. rewrite Hp, Ho.
  unfold field_absent in Ha. destruct bo, bp; cbn [rbind].
  - destruct (Hret eq_refl eq_refl) as [r ->]. cbn [rbind].
    rewrite (absent_setuptools_flit_python_requires _ Ha). reflexivity.
  - rewrite (absent_setuptools_flit_python_requires _ Ha). reflexivity.
  - rewrite (absent_poetry_python_requires _ Ha). reflexivity.
  - reflexivity.
Qed.

(** C1 (as amended).  On a document that the detectors classify, each
    operation is decided by its own field, at the location the detectors
    select ([project] when setuptools or flit is detected, [tool.poetry]
    when only poetry is; when both are detected the poetry reader runs
    first and must return).  When the classifiers are simply absent there,
    [get_supported_python_versions] returns the empty list without a
    diagnostic, and [update_supported_python_versions] returns none and
    writes "The value specified for classifiers is not an array".  When
    the python requirement is simply absent there,
    [update_python_requires] returns none without a diagnostic, and
    [get_python_requires] returns none and writes "The value specified for
    python dependency is not a string". *)
Theorem absent_field_outcomes known ppr gv uc f w d bp bo vs :
  holds f w d ->
  is_poetry_toml d = Ok bp ->
  is_setuptools_or_flit d = Ok bo ->
  stderr (after_load f w) = stderr w /\
  (field_absent [TOOL; POETRY] CLASSIFIERS CLASSIFIERS bp bo d = true ->
   (bp = true -> bo = true -> exists c, _get_poetry_classifiers d = Ok c) ->
   get_supported_python_versions gv f w = (Ok [], after_load f w) /\
   update_supported_python_versions uc f vs w
   = (Ok None,
      with_stderr (after_load f w) (stderr w ++ [msg_not_an_array])%list)) /\
  (field_absent [TOOL; POETRY; DEPENDENCIES] PYTHON PYTHON_REQUIRES bp bo d
   = true ->
   (bp = true -> bo = true ->
    exists r, _get_poetry_python_requires d = Ok r) ->
   update_python_requires known f vs w = (Ok None, after_load f w) /\
   get_python_requires ppr f w
   = (Ok None,
      with_stderr (after_load f w) (stderr w ++ [msg_not_a_string])%list)).
Proof.
  intros H Hp Ho.
  split; [apply after_load_stderr|]. split.
  - intros Ha Hret.
    pose proof (selected_classifiers_absent d bp bo Hp Ho Ha Hret) as Hc.
    split.
    + apply (extract_classifiers_falsy gv f w d _ H Hc). reflexivity.
    + apply (update_classifiers_refused uc f w d _ vs H Hc). right.
      reflexivity.
  - intros Ha Hret.
    pose proof (selected_python_requires_absent d bp bo Hp Ho Ha Hret)
      as Hr.
    split.
    + apply (update_requires_nothing known f w d vs H Hr).
    + apply (extract_requires_refused ppr f w d None H Hr). left.
      reflexivity.
Qed.

(** The flit project of [test_get_python_requires], which declares a
    requirement and no classifiers, and the one of
    [test_get_python_requires_not_specified], which declares neither. *)
Lemma absent_field_outcomes_witness :
  (get_supported_python_versions Scenario.no_versions
     (Filename PYPROJECT_TOML)
     (Scenario.on_disk
        (Scenario_requires.project_requiring (Scenario.str ">=3.6")))
   = (Ok [],
      Scenario.on_disk
        (Scenario_requires.project_requiring (Scenario.str ">=3.6"))) /\
   update_supported_python_versions Scenario.no_update
     (Filename PYPROJECT_TOML) [Scenario.v27; Scenario.v32]
     (Scenario.on_disk
        (Scenario_requires.project_requiring (Scenario.str ">=3.6")))
   = (Ok None,
      with_stderr
        (Scenario.on_disk
           (Scenario_requires.project_requiring (Scenario.str ">=3.6")))
        [msg_not_an_array])) /\
  (update_python_requires (Scenario.known_up_to 11)
     (Filename PYPROJECT_TOML) [Scenario.v27; Scenario.v32]
     (Scenario.on_disk (Scenario.flit_project []))
   = (Ok None, Scenario.on_disk (Scenario.flit_project [])) /\
   get_python_requires Scenario.no_parse (Filename PYPROJECT_TOML)
     (Scenario.on_disk (Scenario.flit_project []))
   = (Ok None,
      with_stderr (Scenario.on_disk (Scenario.flit_project []))
        [msg_not_a_string])).
Proof.
  split.
  - destruct (absent_field_outcomes (Scenario.known_up_to 11)
                Scenario.no_parse Scenario.no_versions Scenario.no_update
                (Filename PYPROJECT_TOML)
                (Scenario.on_disk
                   (Scenario_requires.project_requiring
                      (Scenario.str ">=3.6")))
                (Scenario_requires.project_requiring (Scenario.str ">=3.6"))
                false true [Scenario.v27; Scenario.v32]
                eq_refl eq_refl eq_refl) as [_ [H _]].
    apply H; [reflexivity|]. intros Hbp. discriminate Hbp.
  - destruct (absent_field_outcomes (Scenario.known_up_to 11)
                Scenario.no_parse Scenario.no_versions Scenario.no_update
                (Filename PYPROJECT_TOML)
                (Scenario.on_disk (Scenario.flit_project []))
                (Scenario.flit_project [])
                false true [Scenario.v27; Scenario.v32]
                eq_refl eq_refl eq_refl) as [_ [_ H]].
    apply H; [reflexivity|]. intros Hbp. discriminate Hbp.
Defined.

(** C1, as stated, fails: on the flit project that declares neither field,
    [get_python_requires] and [update_supported_python_versions] each
    write a diagnostic. *)
Lemma absent_field_is_reported :
  let d := Scenario.flit_project [] in
  let f := Filename PYPROJECT_TOML in
  let w := Scenario.on_disk d in
  absent_at [PROJECT] PYTHON_REQUIRES d = true /\
  absent_at [PROJECT] CLASSIFIERS d = true /\
  stderr w = [] /\
  stderr (snd (get_python_requires Scenario.no_parse f w))
  = [msg_not_a_string] /\
  stderr (snd (update_supported_python_versions Scenario.no_update f
                 [Scenario.v27; Scenario.v32] w))
  = [msg_not_an_array].
Proof. repeat split. Qed.

(* ================================================================== *)
(** ** How the two extract operations signal absence *)





(** C10.  On a document whose classifiers are an empty list,
    [get_supported_python_versions] returns the empty list without a
    diagnostic, and [update_supported_python_versions] returns none and
    writes "The value specified for classifiers is not an array", though
    the value is a list. *)
Theorem empty_classifiers_asymmetry gv uc f w d vs :
  holds f w d ->
  classifiers_of_table d = Ok (VArray []) ->
  isinstance_list (VArray []) = true /\
  stderr (after_load f w) = stderr w /\
  get_supported_python_versions gv f w = (Ok [], after_load f w) /\
  update_supported_python_versions uc f vs w
  = (Ok None,
     with_stderr (after_load f w) (stderr w ++ [msg_not_an_array])%list).
Proof.
  intros H Hc.
  split; [reflexivity|].
  split; [apply after_load_stderr|].
  split.
  - apply (extract_classifiers_falsy gv f w d _ H Hc). reflexivity.
  - apply (update_classifiers_refused uc f w d _ vs H Hc). right.
    reflexivity.
Qed.

(** A flit project with [classifiers = []], passed as a stream. *)
Lemma empty_classifiers_asymmetry_witness :
  let d := Scenario.flit_project [(CLASSIFIERS, VArray [])] in
  let f := FileObject StringIO in
  let w := Scenario.fresh_stream d in
  get_supported_python_versions Scenario.no_versions f w
  = (Ok [], after_load f w) /\
  update_supported_python_versions Scenario.no_update f [Scenario.v32] w
  = (Ok None,
     with_stderr (after_load f w) (stderr w ++ [msg_not_an_array])%list).
Proof.
  intros d f w.
  destruct (empty_classifiers_asymmetry Scenario.no_versions
              Scenario.no_update f w d [Scenario.v32] eq_refl eq_refl)
    as [_ [_ [Hget Hupd]]].
  split; assumption.
Defined.

(* ================================================================== *)
(** ** What an operation leaves alone *)

Lemma keeps_stderr_ret {A} (a : A) : keeps_stderr (ret a).
Proof. intros w. reflexivity. Qed.

Lemma keeps_stderr_lift {A} (r : result A) : keeps_stderr (lift r).
Proof. intros w. reflexivity. Qed.

Lemma keeps_stderr_bind {A B} (m : M A) (k : A -> M B) :
  keeps_stderr m -> (forall a, keeps_stderr (k a)) -> keeps_stderr (bind m k).
Proof.
  intros Hm Hk w. unfold bind. specialize (Hm w).
  destruct (m w) as [[a|e] w1]; simpl in *; [|assumption].
  rewrite Hk. assumption.
Qed.

Lemma keeps_stderr_seek0 : keeps_stderr seek0.
Proof. intros w. reflexivity. Qed.

Lemma keeps_stderr_open_file f : keeps_stderr (open_file f).
Proof.
  intros w. unfold open_file. destruct f; [|reflexivity].
  destruct (find _ (files w)); reflexivity.
Qed.

Lemma keeps_stderr_load h : keeps_stderr (load h).
Proof.
  intros w. unfold load. destruct h; [|reflexivity].
  destruct (find _ (files w)); reflexivity.
Qed.

Lemma keeps_stderr_on_table {A} (g : TOMLDocument -> result A) t :
  keeps_stderr (on_table g t).
Proof. destruct t; apply keeps_stderr_lift. Qed.

Create HintDb frame.
#[local] Hint Resolve keeps_stderr_ret keeps_stderr_lift keeps_stderr_seek0
  keeps_stderr_open_file keeps_stderr_load keeps_stderr_on_table : frame.

Ltac frame :=
  repeat first
    [ apply keeps_stderr_bind; [|intros ?]
    | match goal with |- keeps_stderr (if ?b then _ else _) => destruct b end
    | solve [auto with frame] ].

Lemma keeps_stderr_load_toml f : keeps_stderr (load_toml f).
Proof. unfold load_toml. frame. Qed.

Lemma keeps_stderr_update_requires f v :
  keeps_stderr (_update_pyproject_python_requires f v).
Proof.
  unfold _update_pyproject_python_requires.
  apply keeps_stderr_bind; [apply keeps_stderr_load_toml|].
  intros t. apply keeps_stderr_on_table.
Qed.

Lemma keeps_stderr_get_requires f :
  keeps_stderr (_get_pyproject_toml_python_requires f).
Proof.
  unfold _get_pyproject_toml_python_requires.
  apply keeps_stderr_bind; [apply keeps_stderr_load_toml|].
  intros t. apply keeps_stderr_on_table.
Qed.

(** [update_python_requires] never writes a diagnostic. *)
Lemma update_python_requires_is_silent known f vs :
  keeps_stderr (update_python_requires known f vs).
Proof.
  unfold update_python_requires.
  apply keeps_stderr_bind; [apply keeps_stderr_get_requires|].
  intros [v|]; [|apply keeps_stderr_ret].
  pose proof (keeps_stderr_update_requires f) as Hupd.
  frame; apply Hupd.
Qed.

Lemma keeps_stream_ret {A} (a : A) : keeps_stream (ret a).
Proof. intros w. reflexivity. Qed.


Lemma keeps_stream_warn msg : keeps_stream (warn msg).
Proof. intros w. reflexivity. Qed.

Lemma keeps_stream_emit {A} (r : list string * result A) :
  keeps_stream (emit r).
Proof. intros w. reflexivity. Qed.

Lemma keeps_stream_bind {A B} (m : M A) (k : A -> M B) :
  keeps_stream m -> (forall a, keeps_stream (k a)) -> keeps_stream (bind m k).
Proof.
  intros Hm Hk w. unfold bind. specialize (Hm w).
  destruct (m w) as [[a|e] w1]; simpl in *; [|assumption].
  rewrite Hk. assumption.
Qed.




(* ================================================================== *)
(** ** Rewriting the range expression *)

(** [update_python_requires] on a field that holds a string. *)
Lemma update_python_requires_str known f w d ml s vs :
  holds f w d ->
  python_requires_of_table d = Ok (Some (VString ml s)) ->
  update_python_requires known f vs w
  = match compute_python_requires known vs (comma_style s) (space_style s)
    with
    | Ok new_requires =>
        _update_pyproject_python_requires f (VString false new_requires)
          (rewound f w)
    | Raise e => (Raise e, after_load f w)
    end.
Proof.
  intros H Hr. unfold update_python_requires, bind at 1.
  rewrite (get_python_requires_holds _ _ _ H), Hr.
  unfold bind, lift, ret, comma_style, space_style, rewound. simpl.
  destruct (is_infix "," s); simpl;
    destruct (is_infix ", " s); simpl;
    destruct (is_infix "> " s); simpl;
    destruct (is_infix "= " s); simpl;
    match goal with
    | |- context [compute_python_requires ?k ?v ?c ?sp] =>
        destruct (compute_python_requires k v c sp)
    end; try reflexivity;
    destruct f; reflexivity.
Qed.


Lemma has_space_cons c s :
  has_space (String c s) = Ascii.eqb c " " || has_space s.
Proof.
  unfold has_space.
  change (is_infix " " (String c s))
    with (String.prefix " " (String c s) || is_infix " " s).
  f_equal. cbn [String.prefix].
  destruct (ascii_dec " " c) as [E|E].
  - subst c. destruct s; symmetry; apply Ascii.eqb_refl.
  - symmetry. apply Ascii.eqb_neq. congruence.
Qed.

Lemma has_space_append a b :
  has_space (a ++ b) = has_space a || has_space b.
Proof.
  induction a as [|c a IH].
  - destruct b; reflexivity.
  - change (String c a ++ b) with (String c (a ++ b)).
    rewrite !has_space_cons, IH. apply orb_assoc.
Qed.

Lemma has_space_string_of_uint d :
  has_space (NilEmpty.string_of_uint d) = false.
Proof.
  induction d; cbn [NilEmpty.string_of_uint];
    rewrite ?has_space_cons, ?IHd; reflexivity.
Qed.

Lemma has_space_render v : has_space (render v) = false.
Proof.
  unfold render, string_of_nat.
  rewrite !has_space_append, !has_space_string_of_uint.
  destruct (micro v); [|reflexivity].
  rewrite has_space_append, has_space_string_of_uint. reflexivity.
Qed.

Lemma has_space_concat sep l :
  has_space sep = false ->
  Forall (fun x => has_space x = false) l ->
  has_space (String.concat sep l) = false.
Proof.
  intros Hsep Hl. induction Hl as [|x l Hx Hl IH]; [reflexivity|].
  destruct l as [|y l]; [exact Hx|].
  change (String.concat sep (x :: y :: l))
    with (x ++ sep ++ String.concat sep (y :: l)).
  rewrite !has_space_append, Hx, Hsep, IH. reflexivity.
Qed.

Lemma Ok_injective {A} (a b : A) : Ok a = Ok b -> a = b.
Proof. intros H. injection H as H. exact H. Qed.

Lemma compute_python_requires_cons known first rest comma space :
  compute_python_requires known (first :: rest) comma space
  = Ok (String.concat comma
          ((">=" ++ space ++ render first) ::
           map (fun v => "!=" ++ space ++ render v ++ ".*")
             (filter
                (fun v => version_leb first v &&
                          negb (version_in v (first :: rest)))
                known))).
Proof. reflexivity. Qed.

(** C4 (as amended).  On the document whose requires-python is
    [">=2.7,!=3.0.*"], with the versions known up to 3.2 and the target
    [2.7, 3.2], [update_python_requires] reads the comma style [","] and
    the space style [""] off the existing text and rewrites the field to
    [">=2.7,!=3.0.*,!=3.1.*"]; and whatever the versions, an expression
    encoded with comma [","] and space [""] contains no space. *)
Theorem update_preserves_comma_style :
  comma_style Scenario_requires.old_requires = "," /\
  space_style Scenario_requires.old_requires = "" /\
  fst (update_python_requires (Scenario.known_up_to 2) (FileObject StringIO)
         Scenario_requires.target Scenario_requires.before)
  = Ok (Some (DumpsSplit
                (Scenario_requires.project_requiring
                   (Scenario.str Scenario_requires.new_requires)))) /\
  (forall known vs s,
     compute_python_requires known vs "," "" = Ok s ->
     has_space s = false).
Proof.
  split; [reflexivity|].
  split; [reflexivity|].
  split; [vm_compute; reflexivity|].
  intros known vs s H. destruct vs as [|v0 vs]; [discriminate H|].
  rewrite compute_python_requires_cons in H.
  apply Ok_injective in H. rewrite <- H.
  apply has_space_concat; [reflexivity|].
  constructor.
  - rewrite !has_space_append, has_space_render. reflexivity.
  - apply Forall_forall. intros x Hx. apply in_map_iff in Hx.
    destruct Hx as [v [<- _]].
    rewrite !has_space_append, has_space_render. reflexivity.
Qed.

(** The encoding of the scenario: [">=2.7,!=3.0.*,!=3.1.*"]. *)
Lemma update_preserves_comma_style_witness :
  compute_python_requires (Scenario.known_up_to 2) Scenario_requires.target
    "," "" = Ok Scenario_requires.new_requires /\
  has_space Scenario_requires.new_requires = false.
Proof.
  split; [reflexivity|].
  destruct update_preserves_comma_style as [_ [_ [_ H]]].
  apply (H (Scenario.known_up_to 2) Scenario_requires.target).
  reflexivity.
Defined.

(** C4, as stated, fails: with the versions known up to 3.11 the same
    update also excludes 3.3 to 3.11. *)
Lemma known_up_to_3_11_excludes_more :
  fst (update_python_requires (Scenario.known_up_to 11) (FileObject StringIO)
         Scenario_requires.target Scenario_requires.before)
  = Ok (Some (DumpsSplit
                (Scenario_requires.project_requiring
                   (Scenario.str Scenario_requires.new_requires_3_11)))) /\
  fst (update_python_requires (Scenario.known_up_to 11) (FileObject StringIO)
         Scenario_requires.target Scenario_requires.before)
  <> Ok (Some (DumpsSplit
                 (Scenario_requires.project_requiring
                    (Scenario.str Scenario_requires.new_requires)))).
Proof.
  split; [vm_compute; reflexivity|].
  vm_compute. intros H. discriminate H.
Qed.

(* ================================================================== *)
(** ** Reading a stream *)





Lemma stream_holds c w d :
  c <> OtherTextIO -> pending (fp w) = Ok d -> holds (FileObject c) w d.
Proof. intros Hc H. destruct c; [exact H | exact H | contradiction]. Qed.




(* ================================================================== *)
(** ** Multi-line strings *)

(** Once the field has been found, the rewriting returns lines or raises:
    it never returns none. *)
Lemma update_python_requires_of_table_not_none t v :
  update_python_requires_of_table t v <> Ok None.
Proof.
  unfold update_python_requires_of_table, update_table.
  destruct (is_poetry_toml t) as [[|]|e]; cbn [rbind]; try discriminate.
  - unfold _set_poetry_python_requires, set_and_dump.
    destruct (assign_path _ _ _ t) as [t1|e]; cbn [rbind fst snd];
      try discriminate.
    destruct (is_setuptools_or_flit t1) as [[|]|e]; cbn [rbind];
      try discriminate.
    unfold _set_setuptools_flit_python_requires, set_and_dump.
    destruct (assign_path _ _ _ t1) as [t2|e]; cbn [rbind fst snd];
      discriminate.
  - cbn [fst snd].
    destruct (is_setuptools_or_flit t) as [[|]|e]; cbn [rbind];
      try discriminate.
    unfold _set_setuptools_flit_python_requires, set_and_dump.
    destruct (assign_path _ _ _ t) as [t2|e]; cbn [rbind fst snd];
      discriminate.
Qed.

Lemma _update_pyproject_python_requires_not_none f v w :
  fst (_update_pyproject_python_requires f v w) <> Ok None.
Proof.
  unfold _update_pyproject_python_requires, bind.
  destruct (load_toml f w) as [[[t|]|e] w1]; simpl; try discriminate.
  apply update_python_requires_of_table_not_none.
Qed.


(* ================================================================== *)
(** ** Documents that two detectors accept *)

Lemma lookup_assign_same k v t :
  lookup k (assign k v t) = Some v.
Proof.
  induction t as [|[k0 v0] t IH]; simpl.
  - rewrite String.eqb_refl. reflexivity.
  - destruct (String.eqb k k0) eqn:E; simpl; rewrite E; [reflexivity|].
    exact IH.
Qed.

Lemma lookup_assign_other k k' v t :
  String.eqb k' k = false ->
  lookup k' (assign k v t) = lookup k' t.
Proof.
  intros H. induction t as [|[k0 v0] t IH]; simpl.
  - rewrite H. reflexivity.
  - destruct (String.eqb k k0) eqn:E; simpl.
    + apply String.eqb_eq in E. subst k0. rewrite H. reflexivity.
    + destruct (String.eqb k' k0); [reflexivity | exact IH].
Qed.

(** A write below [tool.poetry] replaces the entry [poetry] of the table
    [tool] and nothing else on the way. *)
Lemma poetry_write_shape rest k v d d1 :
  assign_path (TOOL :: POETRY :: rest) k v d = Ok d1 ->
  exists tool x,
    lookup TOOL d = Some (VTable tool) /\
    d1 = assign TOOL (VTable (assign POETRY x tool)) d.
Proof.
  simpl. intros H.
  destruct (lookup TOOL d) as [[| | | | |tool]|]; try discriminate H.
  destruct (lookup POETRY tool) as [[| | | | |poetry]|];
    try discriminate H.
  destruct (assign_path rest k v poetry) as [poetry'|e];
    try discriminate H.
  simpl in H. injection H as <-.
  exists tool, (VTable poetry'). split; reflexivity.
Qed.

(** The detectors of setuptools and flit do not see such a write. *)
Lemma check_tool_after_poetry_write marker d tool x :
  String.eqb marker POETRY = false ->
  lookup TOOL d = Some (VTable tool) ->
  check_tool marker (assign TOOL (VTable (assign POETRY x tool)) d)
  = check_tool marker d.
Proof.
  intros Hm Ht. unfold check_tool, doc_get.
  rewrite lookup_assign_same, Ht. simpl.
  rewrite (lookup_assign_other _ _ _ _ Hm). reflexivity.
Qed.

Lemma check_backend_after_tool_write marker d x :
  check_backend marker (assign TOOL x d) = check_backend marker d.
Proof.
  unfold check_backend, doc_has, doc_getitem, py_getitem.
  rewrite (lookup_assign_other TOOL BUILD_SYSTEM) by reflexivity.
  reflexivity.
Qed.

Lemma check_requires_after_tool_write marker d x :
  check_requires marker (assign TOOL x d) = check_requires marker d.
Proof.
  unfold check_requires, doc_has, doc_getitem, py_getitem.
  rewrite (lookup_assign_other TOOL BUILD_SYSTEM) by reflexivity.
  reflexivity.
Qed.

Lemma is_setuptools_or_flit_after_poetry_write rest k v d d1 :
  assign_path (TOOL :: POETRY :: rest) k v d = Ok d1 ->
  is_setuptools_or_flit d1 = is_setuptools_or_flit d.
Proof.
  intros H. destruct (poetry_write_shape rest k v d d1 H)
    as [tool [x [Ht ->]]].
  unfold is_setuptools_or_flit.
  rewrite !is_setuptools_toml_in_order, !is_flit_toml_in_order.
  unfold detect_tool_last, detect_tool_first.
  rewrite !check_backend_after_tool_write, !check_requires_after_tool_write.
  rewrite !(check_tool_after_poetry_write _ d tool x) by
    (reflexivity || assumption).
  reflexivity.
Qed.

(** The [project] setters, on a document whose [project] is a table. *)
Lemma project_write k v d project :
  lookup PROJECT d = Some (VTable project) ->
  set_and_dump [PROJECT] k d v
  = Ok (assign PROJECT (VTable (assign k v project)) d,
        Some (DumpsSplit (assign PROJECT (VTable (assign k v project)) d)))
  /\ get_path [PROJECT] k (assign PROJECT (VTable (assign k v project)) d)
     = Some v.
Proof.
  intros Hp. unfold set_and_dump. simpl. rewrite Hp. simpl.
  split; [reflexivity|].
  rewrite lookup_assign_same. apply lookup_assign_same.
Qed.

Lemma update_table_both init k path set_other v d d1 l1 :
  is_poetry_toml d = Ok true ->
  is_setuptools_or_flit d = Ok true ->
  set_and_dump (TOOL :: POETRY :: path) k d v = Ok (d1, l1) ->
  update_table init (set_and_dump (TOOL :: POETRY :: path) k) set_other d v
  = (let? st := set_other d1 v in Ok (snd st)).
Proof.
  intros Hp Ho Hset. unfold update_table. rewrite Hp. cbn [rbind].
  rewrite Hset. cbn [rbind fst snd].
  assert (is_setuptools_or_flit d1 = Ok true) as ->; [|reflexivity].
  unfold set_and_dump in Hset.
  destruct (assign_path (TOOL :: POETRY :: path) k v d) as [t|e] eqn:E;
    [|discriminate Hset].
  cbn [rbind] in Hset. injection Hset as <- _.
  rewrite (is_setuptools_or_flit_after_poetry_write _ _ _ _ _ E).
  exact Ho.
Qed.

Lemma lookup_project_after_poetry_write rest k v d d1 :
  assign_path (TOOL :: POETRY :: rest) k v d = Ok d1 ->
  lookup PROJECT d1 = lookup PROJECT d.
Proof.
  intros H. destruct (poetry_write_shape rest k v d d1 H)
    as [tool [x [_ ->]]].
  apply lookup_assign_other. reflexivity.
Qed.

Lemma update_both_project path k set_other_key v d d1 l1 project init :
  is_poetry_toml d = Ok true ->
  is_setuptools_or_flit d = Ok true ->
  set_and_dump (TOOL :: POETRY :: path) k d v = Ok (d1, l1) ->
  lookup PROJECT d = Some (VTable project) ->
  exists d2,
    update_table init (set_and_dump (TOOL :: POETRY :: path) k)
      (set_and_dump [PROJECT] set_other_key) d v
    = Ok (Some (DumpsSplit d2)) /\
    get_path [PROJECT] set_other_key d2 = Some v.
Proof.
  intros Hp Ho Hset Hproj.
  rewrite (update_table_both init k path _ v d d1 l1 Hp Ho Hset).
  assert (lookup PROJECT d1 = Some (VTable project)) as Hproj1.
  { unfold set_and_dump in Hset.
    destruct (assign_path (TOOL :: POETRY :: path) k v d) as [t|e] eqn:E;
      [|discriminate Hset].
    cbn [rbind] in Hset. injection Hset as <- _.
    rewrite (lookup_project_after_poetry_write _ _ _ _ _ E). exact Hproj. }
  destruct (project_write set_other_key v d1 project Hproj1) as [Hw Hg].
  eexists. rewrite Hw. cbn [rbind snd]. split; [reflexivity | exact Hg].
Qed.

(** C7 (as amended).  On a document that the poetry detector and the
    setuptools-or-flit detector both accept, the later check wins the
    result: where the poetry reader returns, the classifiers and the python
    requirement extracted are those of the [project] table, and where the
    poetry writer returns and [project] is a table, the update returns
    the serialisation of a table whose [project] field holds the new
    value. *)
Theorem later_check_wins d :
  is_poetry_toml d = Ok true ->
  is_setuptools_or_flit d = Ok true ->
  (forall c, _get_poetry_classifiers d = Ok c ->
     classifiers_of_table d = _get_setuptools_flit_classifiers d) /\
  (forall r, _get_poetry_python_requires d = Ok r ->
     python_requires_of_table d = _get_setuptools_flit_python_requires d) /\
  (forall v d1 l1 project,
     _set_poetry_classifiers d v = Ok (d1, l1) ->
     lookup PROJECT d = Some (VTable project) ->
     exists d2,
       update_classifiers_of_table d v = Ok (Some (DumpsSplit d2)) /\
       get_path [PROJECT] CLASSIFIERS d2 = Some v) /\
  (forall v d1 l1 project,
     _set_poetry_python_requires d v = Ok (d1, l1) ->
     lookup PROJECT d = Some (VTable project) ->
     exists d2,
       update_python_requires_of_table d v = Ok (Some (DumpsSplit d2)) /\
       get_path [PROJECT] PYTHON_REQUIRES d2 = Some v).
Proof.
  intros Hp Ho. repeat split.
  - intros c Hc. unfold classifiers_of_table.
    rewrite Hp, Ho. cbn [rbind]. rewrite Hc. cbn [rbind].
    destruct (_get_setuptools_flit_classifiers d); reflexivity.
  - intros r Hr. unfold python_requires_of_table.
    rewrite Hp, Ho. cbn [rbind]. rewrite Hr. cbn [rbind].
    destruct (_get_setuptools_flit_python_requires d); reflexivity.
  - intros v d1 l1 project Hset Hproj.
    exact (update_both_project [] CLASSIFIERS CLASSIFIERS v d d1 l1 project
             None Hp Ho Hset Hproj).
  - intros v d1 l1 project Hset Hproj.
    exact (update_both_project [DEPENDENCIES] PYTHON PYTHON_REQUIRES v d d1
             l1 project (Some NoLines) Hp Ho Hset Hproj).
Qed.

Lemma later_check_wins_witness :
  classifiers_of_table (Scenario_both.document "^3.6" ">=3.6")
  = Ok (VArray [Scenario.str "Programming Language :: Python :: 3.6"]) /\
  python_requires_of_table (Scenario_both.document "^3.6" ">=3.6")
  = Ok (Some (Scenario.str ">=3.6")) /\
  (exists d2,
     update_classifiers_of_table (Scenario_both.document "^3.6" ">=3.6")
       (VArray []) = Ok (Some (DumpsSplit d2)) /\
     get_path [PROJECT] CLASSIFIERS d2 = Some (VArray [])) /\
  (exists d2,
     update_python_requires_of_table (Scenario_both.document "^3.6" ">=3.6")
       (Scenario.str ">=3.7") = Ok (Some (DumpsSplit d2)) /\
     get_path [PROJECT] PYTHON_REQUIRES d2 = Some (Scenario.str ">=3.7")).
Proof.
  destruct (later_check_wins (Scenario_both.document "^3.6" ">=3.6")
              eq_refl eq_refl) as [Hc [Hr [Huc Hur]]].
  split; [|split; [|split]].
  - rewrite (Hc _ eq_refl). reflexivity.
  - rewrite (Hr _ eq_refl). reflexivity.
  - exact (Huc (VArray []) _ _ _ eq_refl eq_refl).
  - exact (Hur (Scenario.str ">=3.7") _ _ _ eq_refl eq_refl).
Defined.

(** C7, as stated, fails for the update: on the setuptools project that
    also carries [tool.poetry], [update_python_requires] writes the new
    expression at [tool.poetry.dependencies.python] as well as at
    [project.requires-python]. *)
Lemma update_writes_both_locations :
  is_poetry_toml (Scenario_both.document "^3.6" ">=3.6") = Ok true /\
  is_setuptools_or_flit (Scenario_both.document "^3.6" ">=3.6") = Ok true /\
  fst (update_python_requires (Scenario.known_up_to 7) (FileObject StringIO)
         [Scenario_both.v37] Scenario_both.before)
  = Ok (Some (DumpsSplit (Scenario_both.document ">=3.7" ">=3.7"))) /\
  get_path [TOOL; POETRY; DEPENDENCIES] PYTHON
    (Scenario_both.document ">=3.7" ">=3.7")
  <> get_path [TOOL; POETRY; DEPENDENCIES] PYTHON
       (Scenario_both.document "^3.6" ">=3.6").
Proof.
  split; [reflexivity|].
  split; [reflexivity|].
  split; [vm_compute; reflexivity|].
  vm_compute. intros H. discriminate H.
Qed.

(** When poetry is only named in the build requirements there is no
    [tool] table to write to, and the update stops with a [KeyError]. *)
Lemma update_without_tool_table :
  is_poetry_toml Scenario_both.no_tool_table = Ok true /\
  is_setuptools_or_flit Scenario_both.no_tool_table = Ok true /\
  python_requires_of_table Scenario_both.no_tool_table
  = Ok (Some (Scenario.str ">=3.6")) /\
  update_python_requires_of_table Scenario_both.no_tool_table
    (Scenario.str ">=3.7")
  = Raise KeyError.
Proof. repeat split. Qed.

(* ================================================================== *)
(** * Further properties of the module *)

(* ================================================================== *)
(** ** Reading and writing along a path *)

Lemma assign_path_defined path k v v0 t :
  get_path path k t = Some v0 ->
  exists t', assign_path path k v t = Ok t'.
Proof.
  revert t. induction path as [|p rest IH]; intros t H; simpl in *.
  - eexists. reflexivity.
  - destruct (lookup p t) as [[| | | | |sub]|]; try discriminate H.
    destruct (IH sub H) as [sub' ->]. eexists. reflexivity.
Qed.

Lemma get_path_assign_path path k v t t' :
  assign_path path k v t = Ok t' ->
  get_path path k t' = Some v.
Proof.
  revert t t'. induction path as [|p rest IH]; intros t t' H; simpl in *.
  - injection H as <-. apply lookup_assign_same.
  - destruct (lookup p t) as [[| | | | |sub]|]; try discriminate H.
    destruct (assign_path rest k v sub) as [sub'|e] eqn:E;
      [|discriminate H].
    cbn [rbind] in H. injection H as <-.
    rewrite lookup_assign_same. exact (IH sub sub' E).
Qed.

(** A write leaves the other top-level entries as they are. *)
Lemma lookup_after_assign_path p rest k v t t' q :
  assign_path (p :: rest) k v t = Ok t' ->
  String.eqb q p = false ->
  lookup q t' = lookup q t.
Proof.
  simpl. intros H Hq.
  destruct (lookup p t) as [[| | | | |sub]|]; try discriminate H.
  destruct (assign_path rest k v sub) as [sub'|e]; [|discriminate H].
  cbn [rbind] in H. injection H as <-.
  apply lookup_assign_other. exact Hq.
Qed.

(** Case analysis on the next lookup a hypothesis on a reader waits for;
    what is left are the cases in which the reader did not raise. *)
Ltac reader_case H :=
  match type of H with
  | context [lookup ?k ?t] =>
      let E := fresh "E" in
      destruct (lookup k t) as [[]|] eqn:E;
      cbn [negb rbind py_in py_getitem] in H;
      try discriminate H;
      try (match type of H with
           | context [if ?b then _ else _] =>
               destruct b; cbn [negb rbind] in H; discriminate H
           end)
  end.

Ltac reader_last H :=
  match type of H with
  | context [lookup ?k ?t] =>
      let E := fresh "E" in
      destruct (lookup k t) eqn:E; cbn [negb rbind] in H;
      [injection H as ->; reflexivity | discriminate H]
  end.

Ltac path_case H :=
  match type of H with
  | context [lookup ?k ?t] =>
      let E := fresh "E" in
      destruct (lookup k t) as [[]|] eqn:E; try discriminate H;
      cbn [negb rbind py_in py_getitem]; rewrite ?E;
      cbn [negb rbind py_in py_getitem]
  end.

Lemma poetry_requires_found d v :
  _get_poetry_python_requires d = Ok (Some v) <->
  get_path [TOOL; POETRY; DEPENDENCIES] PYTHON d = Some v.
Proof.
  unfold _get_poetry_python_requires, doc_has, doc_getitem.
  cbn [get_path py_getitem]. split; intros H.
  - reader_case H. reader_case H. reader_case H. reader_last H.
  - path_case H. path_case H. path_case H. rewrite H. reflexivity.
Qed.

Lemma project_requires_found d v :
  _get_setuptools_flit_python_requires d = Ok (Some v) <->
  get_path [PROJECT] PYTHON_REQUIRES d = Some v.
Proof.
  unfold _get_setuptools_flit_python_requires, doc_has, doc_getitem.
  cbn [get_path py_getitem]. split; intros H.
  - reader_case H. reader_last H.
  - path_case H. rewrite H. reflexivity.
Qed.

Lemma poetry_classifiers_written d v :
  get_path [TOOL; POETRY] CLASSIFIERS d = Some v ->
  _get_poetry_classifiers d = Ok v.
Proof.
  unfold _get_poetry_classifiers, doc_has, doc_getitem.
  cbn [get_path py_getitem]. intros H.
  path_case H. path_case H. rewrite H. reflexivity.
Qed.

Lemma project_classifiers_written d v :
  get_path [PROJECT] CLASSIFIERS d = Some v ->
  _get_setuptools_flit_classifiers d = Ok v.
Proof.
  unfold _get_setuptools_flit_classifiers, doc_has, doc_getitem.
  cbn [get_path py_getitem]. intros H.
  path_case H. rewrite H. reflexivity.
Qed.

(** Classifiers that are not empty were found in the document. *)
Ltac found_case H Ht :=
  match type of H with
  | context [lookup ?k ?t] =>
      let E := fresh "E" in
      destruct (lookup k t) as [[]|] eqn:E;
      cbn [negb rbind py_in py_getitem] in H;
      try discriminate H;
      try (injection H as <-; discriminate Ht);
      try (match type of H with
           | context [if ?b then _ else _] =>
               destruct b; cbn [negb rbind] in H;
               [injection H as <-; discriminate Ht | discriminate H]
           end)
  end.

Ltac found_last H Ht :=
  match type of H with
  | context [lookup ?k ?t] =>
      let E := fresh "E" in
      destruct (lookup k t) eqn:E; cbn [negb rbind] in H;
      [injection H as ->; reflexivity | injection H as <-; discriminate Ht]
  end.

Lemma poetry_classifiers_found d c :
  _get_poetry_classifiers d = Ok c ->
  truthy c = true ->
  get_path [TOOL; POETRY] CLASSIFIERS d = Some c.
Proof.
  unfold _get_poetry_classifiers, doc_has, doc_getitem.
  cbn [get_path py_getitem]. intros H Ht.
  found_case H Ht. found_case H Ht. found_last H Ht.
Qed.

Lemma project_classifiers_found d c :
  _get_setuptools_flit_classifiers d = Ok c ->
  truthy c = true ->
  get_path [PROJECT] CLASSIFIERS d = Some c.
Proof.
  unfold _get_setuptools_flit_classifiers, doc_has, doc_getitem.
  cbn [get_path py_getitem]. intros H Ht.
  found_case H Ht. found_last H Ht.
Qed.

(* ================================================================== *)
(** ** Writes and the detectors *)

(** The detectors look at [tool] and [build-system] and at nothing else. *)
Lemma detectors_look_at_tool_and_build_system d d' :
  lookup TOOL d' = lookup TOOL d ->
  lookup BUILD_SYSTEM d' = lookup BUILD_SYSTEM d ->
  is_poetry_toml d' = is_poetry_toml d /\
  is_setuptools_toml d' = is_setuptools_toml d /\
  is_flit_toml d' = is_flit_toml d.
Proof.
  intros Ht Hb.
  unfold is_poetry_toml, is_setuptools_toml, is_flit_toml, doc_get, doc_has,
    doc_getitem, py_getitem.
  rewrite Ht, Hb. repeat split.
Qed.

Lemma detectors_after_project_write k v d d' :
  assign_path [PROJECT] k v d = Ok d' ->
  is_poetry_toml d' = is_poetry_toml d /\
  is_setuptools_toml d' = is_setuptools_toml d /\
  is_flit_toml d' = is_flit_toml d.
Proof.
  intros H. apply detectors_look_at_tool_and_build_system.
  - apply (lookup_after_assign_path _ _ _ _ _ _ TOOL H). reflexivity.
  - apply (lookup_after_assign_path _ _ _ _ _ _ BUILD_SYSTEM H).
    reflexivity.
Qed.

Lemma is_poetry_around_poetry_write rest k v d d1 :
  assign_path (TOOL :: POETRY :: rest) k v d = Ok d1 ->
  is_poetry_toml d = Ok true /\ is_poetry_toml d1 = Ok true.
Proof.
  simpl. intros H.
  destruct (lookup TOOL d) as [[| | | | |tool]|] eqn:Et; try discriminate H.
  destruct (lookup POETRY tool) as [[| | | | |poetry]|] eqn:Ep;
    try discriminate H.
  destruct (assign_path rest k v poetry) as [poetry'|e];
    try discriminate H.
  cbn [rbind] in H. injection H as <-.
  unfold is_poetry_toml, doc_get.
  rewrite Et, lookup_assign_same. cbn [py_in rbind].
  rewrite Ep, lookup_assign_same. split; reflexivity.
Qed.

Lemma detectors_after_poetry_write rest k v d d1 :
  assign_path (TOOL :: POETRY :: rest) k v d = Ok d1 ->
  is_poetry_toml d1 = is_poetry_toml d /\
  is_setuptools_toml d1 = is_setuptools_toml d /\
  is_flit_toml d1 = is_flit_toml d.
Proof.
  intros H.
  destruct (is_poetry_around_poetry_write rest k v d d1 H) as [-> ->].
  split; [reflexivity|].
  destruct (poetry_write_shape rest k v d d1 H) as [tool [x [Ht ->]]].
  rewrite !is_setuptools_toml_in_order, !is_flit_toml_in_order.
  unfold detect_tool_last, detect_tool_first.
  rewrite !check_backend_after_tool_write, !check_requires_after_tool_write.
  rewrite !(check_tool_after_poetry_write _ d tool x) by
    (reflexivity || assumption).
  split; reflexivity.
Qed.

Lemma set_and_dump_inv path k t v t' l :
  set_and_dump path k t v = Ok (t', l) ->
  assign_path path k v t = Ok t' /\ l = Some (DumpsSplit t').
Proof.
  unfold set_and_dump. intros H.
  destruct (assign_path path k v t) as [t1|e]; [|discriminate H].
  cbn [rbind] in H. injection H as <- <-. split; reflexivity.
Qed.

(** X1.  A write never changes what a document is detected as. *)
Theorem writes_keep_detection t v t' l :
  _set_poetry_classifiers t v = Ok (t', l) \/
  _set_poetry_python_requires t v = Ok (t', l) \/
  _set_setuptools_flit_classifiers t v = Ok (t', l) \/
  _set_setuptools_flit_python_requires t v = Ok (t', l) ->
  is_poetry_toml t' = is_poetry_toml t /\
  is_setuptools_toml t' = is_setuptools_toml t /\
  is_flit_toml t' = is_flit_toml t.
Proof.
  intros [H|[H|[H|H]]]; apply set_and_dump_inv in H; destruct H as [H _].
  - exact (detectors_after_poetry_write _ _ _ _ _ H).
  - exact (detectors_after_poetry_write _ _ _ _ _ H).
  - exact (detectors_after_project_write _ _ _ _ H).
  - exact (detectors_after_project_write _ _ _ _ H).
Qed.

Lemma writes_keep_detection_witness :
  is_poetry_toml (Scenario_both.document ">=3.7" ">=3.6") = Ok true /\
  is_setuptools_toml (Scenario_both.document ">=3.7" ">=3.6") = Ok true /\
  is_flit_toml (Scenario_both.document ">=3.7" ">=3.6") = Ok false.
Proof.
  apply (writes_keep_detection (Scenario_both.document "^3.6" ">=3.6")
           (Scenario.str ">=3.7")
           (Scenario_both.document ">=3.7" ">=3.6")
           (Some (DumpsSplit (Scenario_both.document ">=3.7" ">=3.6")))).
  right. left. reflexivity.
Defined.

(** X2.  What a setter wrote is what the matching reader returns, and the
    lines are those of the table as written. *)
Theorem set_then_get t v t' l :
  (_set_setuptools_flit_classifiers t v = Ok (t', l) ->
   _get_setuptools_flit_classifiers t' = Ok v /\
   l = Some (DumpsSplit t')) /\
  (_set_setuptools_flit_python_requires t v = Ok (t', l) ->
   _get_setuptools_flit_python_requires t' = Ok (Some v) /\
   l = Some (DumpsSplit t')) /\
  (_set_poetry_classifiers t v = Ok (t', l) ->
   _get_poetry_classifiers t' = Ok v /\
   l = Some (DumpsSplit t')) /\
  (_set_poetry_python_requires t v = Ok (t', l) ->
   _get_poetry_python_requires t' = Ok (Some v) /\
   l = Some (DumpsSplit t')).
Proof.
  repeat split;
    match goal with H : _ = Ok (t', l) |- _ =>
      apply set_and_dump_inv in H; destruct H as [H Hl] end;
    try exact Hl.
  - apply project_classifiers_written.
    exact (get_path_assign_path _ _ _ _ _ H).
  - apply project_requires_found.
    exact (get_path_assign_path _ _ _ _ _ H).
  - apply poetry_classifiers_written.
    exact (get_path_assign_path _ _ _ _ _ H).
  - apply poetry_requires_found.
    exact (get_path_assign_path _ _ _ _ _ H).
Qed.

Lemma set_then_get_witness :
  _get_setuptools_flit_python_requires
    (Scenario_requires.project_requiring (Scenario.str ">=3.7"))
  = Ok (Some (Scenario.str ">=3.7")) /\
  _get_poetry_python_requires (Scenario_both.document ">=3.7" ">=3.6")
  = Ok (Some (Scenario.str ">=3.7")) /\
  _get_setuptools_flit_classifiers
    (Scenario.flit_project [(CLASSIFIERS, Scenario_extra.new_classifiers)])
  = Ok Scenario_extra.new_classifiers /\
  _get_poetry_classifiers
    (assign TOOL
       (VTable [(POETRY,
                 assign_classifiers_in Scenario_extra.new_classifiers)])
       Scenario_extra.poetry_project)
  = Ok Scenario_extra.new_classifiers.
Proof.
  split; [|split; [|split]].
  - destruct (set_then_get
                (Scenario_requires.project_requiring (Scenario.str ">=3.6"))
                (Scenario.str ">=3.7")
                (Scenario_requires.project_requiring (Scenario.str ">=3.7"))
                (Some (DumpsSplit
                         (Scenario_requires.project_requiring
                            (Scenario.str ">=3.7")))))
      as [_ [H _]].
    apply H. reflexivity.
  - destruct (set_then_get (Scenario_both.document "^3.6" ">=3.6")
                (Scenario.str ">=3.7")
                (Scenario_both.document ">=3.7" ">=3.6")
                (Some (DumpsSplit (Scenario_both.document ">=3.7" ">=3.6"))))
      as [_ [_ [_ H]]].
    apply H. reflexivity.
  - destruct (set_then_get Scenario_extra.flit_with_classifiers
                Scenario_extra.new_classifiers
                (Scenario.flit_project
                   [(CLASSIFIERS, Scenario_extra.new_classifiers)])
                (Some (DumpsSplit
                         (Scenario.flit_project
                            [(CLASSIFIERS, Scenario_extra.new_classifiers)]))))
      as [H _].
    apply H. reflexivity.
  - destruct (set_then_get Scenario_extra.poetry_project
                Scenario_extra.new_classifiers
                (assign TOOL
                   (VTable [(POETRY,
                             assign_classifiers_in
                               Scenario_extra.new_classifiers)])
                   Scenario_extra.poetry_project)
                (Some (DumpsSplit
                         (assign TOOL
                            (VTable [(POETRY,
                                      assign_classifiers_in
                                        Scenario_extra.new_classifiers)])
                            Scenario_extra.poetry_project))))
      as [_ [_ [H _]]].
    apply H. reflexivity.
Defined.

(* ================================================================== *)
(** ** Updating, then extracting *)

Lemma one_sided_requires d bp :
  is_poetry_toml d = Ok bp ->
  is_setuptools_or_flit d = Ok (negb bp) ->
  python_requires_of_table d
  = if bp then _get_poetry_python_requires d
    else _get_setuptools_flit_python_requires d.
Proof.
  intros Hp Ho. unfold python_requires_of_table. rewrite Hp, Ho.
  destruct bp; cbn [rbind negb].
  - destruct (_get_poetry_python_requires d); reflexivity.
  - destruct (_get_setuptools_flit_python_requires d); reflexivity.
Qed.

Lemma one_sided_classifiers d bp :
  is_poetry_toml d = Ok bp ->
  is_setuptools_or_flit d = Ok (negb bp) ->
  classifiers_of_table d
  = if bp then _get_poetry_classifiers d
    else _get_setuptools_flit_classifiers d.
Proof.
  intros Hp Ho. unfold classifiers_of_table. rewrite Hp, Ho.
  destruct bp; cbn [rbind negb].
  - destruct (_get_poetry_classifiers d); reflexivity.
  - destruct (_get_setuptools_flit_classifiers d); reflexivity.
Qed.

Lemma one_sided_update init k path k' d bp v d' :
  is_poetry_toml d = Ok bp ->
  is_setuptools_or_flit d = Ok (negb bp) ->
  assign_path (if bp then TOOL :: POETRY :: path else [PROJECT])
    (if bp then k else k') v d = Ok d' ->
  update_table init (set_and_dump (TOOL :: POETRY :: path) k)
    (set_and_dump [PROJECT] k') d v
  = Ok (Some (DumpsSplit d')) /\
  is_poetry_toml d' = Ok bp /\
  is_setuptools_or_flit d' = Ok (negb bp).
Proof.
  intros Hp Ho Ha. unfold update_table. rewrite Hp. destruct bp.
  - unfold set_and_dump at 1. rewrite Ha. cbn [rbind fst snd negb] in *.
    destruct (detectors_after_poetry_write _ _ _ _ _ Ha) as [Ep [Es Ef]].
    unfold is_setuptools_or_flit in *. rewrite Es, Ef, Ep, Ho, Hp.
    repeat split.
  - cbn [rbind fst snd negb] in *. rewrite Ho. cbn [rbind].
    unfold set_and_dump. rewrite Ha. cbn [rbind snd].
    destruct (detectors_after_project_write _ _ _ _ Ha) as [Ep [Es Ef]].
    unfold is_setuptools_or_flit in *. rewrite Es, Ef, Ep, Ho, Hp.
    repeat split.
Qed.

(** On a document that only one side accepts, what extraction found can
    be rewritten, and is found again in the table written. *)
Lemma one_sided_round_trip_requires d bp v0 v :
  is_poetry_toml d = Ok bp ->
  is_setuptools_or_flit d = Ok (negb bp) ->
  python_requires_of_table d = Ok (Some v0) ->
  exists d',
    update_python_requires_of_table d v = Ok (Some (DumpsSplit d')) /\
    python_requires_of_table d' = Ok (Some v).
Proof.
  intros Hp Ho Hr. rewrite (one_sided_requires d bp Hp Ho) in Hr.
  assert (exists d',
            assign_path
              (if bp then [TOOL; POETRY; DEPENDENCIES] else [PROJECT])
              (if bp then PYTHON else PYTHON_REQUIRES) v d = Ok d')
    as [d' Ha].
  { destruct bp.
    - apply poetry_requires_found in Hr.
      exact (assign_path_defined _ _ v _ _ Hr).
    - apply project_requires_found in Hr.
      exact (assign_path_defined _ _ v _ _ Hr). }
  exists d'.
  destruct (one_sided_update (Some NoLines) PYTHON [DEPENDENCIES]
              PYTHON_REQUIRES d bp v d' Hp Ho Ha) as [Hu [Hp' Ho']].
  split; [exact Hu|].
  rewrite (one_sided_requires d' bp Hp' Ho').
  destruct bp.
  - apply poetry_requires_found. exact (get_path_assign_path _ _ _ _ _ Ha).
  - apply project_requires_found. exact (get_path_assign_path _ _ _ _ _ Ha).
Qed.

Lemma one_sided_round_trip_classifiers d bp c v :
  is_poetry_toml d = Ok bp ->
  is_setuptools_or_flit d = Ok (negb bp) ->
  classifiers_of_table d = Ok c ->
  truthy c = true ->
  exists d',
    update_classifiers_of_table d v = Ok (Some (DumpsSplit d')) /\
    classifiers_of_table d' = Ok v.
Proof.
  intros Hp Ho Hc Ht. rewrite (one_sided_classifiers d bp Hp Ho) in Hc.
  assert (exists d',
            assign_path (if bp then [TOOL; POETRY] else [PROJECT])
              (if bp then CLASSIFIERS else CLASSIFIERS) v d = Ok d')
    as [d' Ha].
  { destruct bp.
    - apply poetry_classifiers_found in Hc; [|exact Ht].
      exact (assign_path_defined _ _ v _ _ Hc).
    - apply project_classifiers_found in Hc; [|exact Ht].
      exact (assign_path_defined _ _ v _ _ Hc). }
  exists d'.
  destruct (one_sided_update None CLASSIFIERS [] CLASSIFIERS d bp v d'
              Hp Ho Ha) as [Hu [Hp' Ho']].
  split; [exact Hu|].
  rewrite (one_sided_classifiers d' bp Hp' Ho').
  destruct bp.
  - apply poetry_classifiers_written.
    exact (get_path_assign_path _ _ _ _ _ Ha).
  - apply project_classifiers_written.
    exact (get_path_assign_path _ _ _ _ _ Ha).
Qed.

(** X3.  On a document that only one side accepts, an update of the python
    requirement that extraction found succeeds, and extracting from the
    table it serialises gives the new value. *)
Theorem update_then_extract_requires d bp v0 v :
  is_poetry_toml d = Ok bp ->
  is_setuptools_or_flit d = Ok (negb bp) ->
  python_requires_of_table d = Ok (Some v0) ->
  exists d',
    update_python_requires_of_table d v = Ok (Some (DumpsSplit d')) /\
    python_requires_of_table d' = Ok (Some v).
Proof.
  intros Hp Ho Hr.
  destruct (one_sided_round_trip_requires d bp v0 v Hp Ho Hr)
    as [d' [Hu Hx]].
  exists d'. split; [exact Hu | exact Hx].
Qed.

Lemma update_then_extract_requires_witness :
  exists d',
    update_python_requires_of_table Scenario_extra.poetry_project
      (Scenario.str ">=3.7") = Ok (Some (DumpsSplit d')) /\
    python_requires_of_table d' = Ok (Some (Scenario.str ">=3.7")).
Proof.
  apply (update_then_extract_requires Scenario_extra.poetry_project true
           (Scenario.str "^3.6") (Scenario.str ">=3.7"));
    reflexivity.
Defined.

(** X4.  The same for classifiers that extraction found not empty. *)
Theorem update_then_extract_classifiers d bp c v :
  is_poetry_toml d = Ok bp ->
  is_setuptools_or_flit d = Ok (negb bp) ->
  classifiers_of_table d = Ok c ->
  truthy c = true ->
  exists d',
    update_classifiers_of_table d v = Ok (Some (DumpsSplit d')) /\
    classifiers_of_table d' = Ok v.
Proof.
  intros Hp Ho Hc Ht.
  destruct (one_sided_round_trip_classifiers d bp c v Hp Ho Hc Ht)
    as [d' [Hu Hx]].
  exists d'. split; [exact Hu | exact Hx].
Qed.

Lemma update_then_extract_classifiers_witness :
  exists d',
    update_classifiers_of_table Scenario_extra.flit_with_classifiers
      Scenario_extra.new_classifiers = Ok (Some (DumpsSplit d')) /\
    classifiers_of_table d' = Ok Scenario_extra.new_classifiers.
Proof.
  apply (update_then_extract_classifiers
           Scenario_extra.flit_with_classifiers false
           (VArray [Scenario.str "Programming Language :: Python :: 3.6"])
           Scenario_extra.new_classifiers);
    reflexivity.
Defined.

(* ================================================================== *)
(** ** The update operations from end to end *)

Lemma holds_rewound f w d :
  at_start f w d -> holds f (rewound f w) d.
Proof.
  intros [H Hfull]. destruct f as [path|c]; [exact H|].
  destruct c; simpl in *; try assumption.
Qed.

Lemma update_requires_holds f w d v :
  holds f w d ->
  _update_pyproject_python_requires f v w
  = (update_python_requires_of_table d v, after_load f w).
Proof.
  intros H. unfold _update_pyproject_python_requires, bind.
  rewrite (load_toml_holds _ _ _ H). reflexivity.
Qed.

Lemma update_classifiers_holds f w d v :
  holds f w d ->
  _update_pyproject_toml_classifiers f v w
  = (update_classifiers_of_table d v, after_load f w).
Proof.
  intros H. unfold _update_pyproject_toml_classifiers, bind.
  rewrite (load_toml_holds _ _ _ H). reflexivity.
Qed.

(** X5.  [update_python_requires], on a path or on a stream at its start
    that holds a document only one side accepts and whose requirement is a
    string: the expression the encoder returns for the style of the old
    text is written, the lines are those of the table written, and
    extraction from that table finds the new expression. *)
Theorem update_python_requires_end_to_end known f w d bp ml s vs new :
  at_start f w d ->
  is_poetry_toml d = Ok bp ->
  is_setuptools_or_flit d = Ok (negb bp) ->
  python_requires_of_table d = Ok (Some (VString ml s)) ->
  compute_python_requires known vs (comma_style s) (space_style s) = Ok new ->
  exists d',
    update_python_requires known f vs w
    = (Ok (Some (DumpsSplit d')), after_load f (rewound f w)) /\
    python_requires_of_table d' = Ok (Some (VString false new)).
Proof.
  intros Hs Hp Ho Hr Hnew.
  destruct (one_sided_round_trip_requires d bp _ (VString false new)
              Hp Ho Hr) as [d' [Hu Hx]].
  exists d'. split; [|exact Hx].
  rewrite (update_python_requires_str known f w d ml s vs (proj1 Hs) Hr).
  rewrite Hnew.
  rewrite (update_requires_holds f _ d _ (holds_rewound f w d Hs)).
  rewrite Hu. reflexivity.
Qed.

(** The stream of [test_update_python_requires_file_object]. *)
Lemma update_python_requires_end_to_end_witness :
  exists d',
    update_python_requires (Scenario.known_up_to 7) (FileObject StringIO)
      [mkVersion 3 5 None; mkVersion 3 6 None; mkVersion 3 7 None]
      (Scenario.fresh_stream
         (Scenario_requires.project_requiring (Scenario.str ">=3.4")))
    = (Ok (Some (DumpsSplit d')),
       after_load (FileObject StringIO)
         (rewound (FileObject StringIO)
            (Scenario.fresh_stream
               (Scenario_requires.project_requiring
                  (Scenario.str ">=3.4"))))) /\
    python_requires_of_table d' = Ok (Some (VString false ">=3.5")).
Proof.
  apply (update_python_requires_end_to_end (Scenario.known_up_to 7)
           (FileObject StringIO) _
           (Scenario_requires.project_requiring (Scenario.str ">=3.4"))
           false false ">=3.4");
    try reflexivity.
  split; reflexivity.
Defined.

(** X6.  [update_supported_python_versions] on a path: for a document only
    one side accepts and whose classifiers are a non-empty list, the
    classifiers [update_classifiers] returns are written, and extraction
    from the table serialised finds them. *)
Theorem update_classifiers_on_path uc path w d bp cls new vs :
  holds (Filename path) w d ->
  is_poetry_toml d = Ok bp ->
  is_setuptools_or_flit d = Ok (negb bp) ->
  classifiers_of_table d = Ok cls ->
  isinstance_list cls = true ->
  truthy cls = true ->
  uc cls vs = Ok new ->
  exists d',
    update_supported_python_versions uc (Filename path) vs w
    = (Ok (Some (DumpsSplit d')), w) /\
    classifiers_of_table d' = Ok (VArray (map (VString false) new)).
Proof.
  intros H Hp Ho Hc Hl Ht Hnew.
  destruct (one_sided_round_trip_classifiers d bp cls
              (VArray (map (VString false) new)) Hp Ho Hc Ht)
    as [d' [Hu Hx]].
  exists d'. split; [|exact Hx].
  unfold update_supported_python_versions, bind at 1.
  rewrite (get_classifiers_holds _ _ _ H), Hc, Hl, Ht. cbn [negb orb].
  unfold bind, lift. rewrite Hnew.
  rewrite (update_classifiers_holds (Filename path) _ d _ H), Hu.
  reflexivity.
Qed.

(** The file of [test_update_supported_python_versions_flit]. *)
Lemma update_classifiers_on_path_witness :
  exists d',
    update_supported_python_versions Scenario_extra.update_to_37_38
      (Filename PYPROJECT_TOML) [mkVersion 3 7 None; mkVersion 3 8 None]
      (Scenario.on_disk Scenario_extra.flit_with_classifiers)
    = (Ok (Some (DumpsSplit d')),
       Scenario.on_disk Scenario_extra.flit_with_classifiers) /\
    classifiers_of_table d' = Ok Scenario_extra.new_classifiers.
Proof.
  apply (update_classifiers_on_path Scenario_extra.update_to_37_38
           PYPROJECT_TOML
           (Scenario.on_disk Scenario_extra.flit_with_classifiers)
           Scenario_extra.flit_with_classifiers false
           (VArray [Scenario.str "Programming Language :: Python :: 3.6"])
           ["Programming Language :: Python :: 3.7";
            "Programming Language :: Python :: 3.8"]
           [mkVersion 3 7 None; mkVersion 3 8 None]);
    reflexivity.
Defined.

(** X7.  [update_supported_python_versions] on a file handle: the stream is
    read a second time without being repositioned, the second read finds
    an empty document, and the update returns none, whatever the
    classifiers were. *)
Theorem update_classifiers_on_handle uc c w d cls new vs :
  c <> OtherTextIO ->
  pending (fp w) = Ok d ->
  classifiers_of_table d = Ok cls ->
  isinstance_list cls = true ->
  truthy cls = true ->
  uc cls vs = Ok new ->
  update_supported_python_versions uc (FileObject c) vs w
  = (Ok None,
     mkWorld (files w)
       (mkStream (full (fp w)) (Ok []) (io_log (fp w) ++ [Read; Read])%list)
       (stderr w)).
Proof.
  intros Hc Hd Hcls Hl Ht Hnew.
  unfold update_supported_python_versions, bind at 1.
  rewrite (get_classifiers_holds _ _ _ (stream_holds c w d Hc Hd)), Hcls,
    Hl, Ht. cbn [negb orb].
  unfold bind at 1, lift. rewrite Hnew.
  rewrite (update_classifiers_holds (FileObject c) _ []).
  - cbn. rewrite <- app_assoc. reflexivity.
  - apply stream_holds; [exact Hc | reflexivity].
Qed.

Lemma update_classifiers_on_handle_witness :
  update_supported_python_versions Scenario_extra.update_to_37_38
    (FileObject StringIO) [mkVersion 3 7 None; mkVersion 3 8 None]
    (Scenario.fresh_stream Scenario_extra.flit_with_classifiers)
  = (Ok None,
     mkWorld []
       (mkStream (Ok Scenario_extra.flit_with_classifiers) (Ok [])
          [Read; Read])
       []).
Proof.
  apply (update_classifiers_on_handle Scenario_extra.update_to_37_38
           StringIO
           (Scenario.fresh_stream Scenario_extra.flit_with_classifiers)
           Scenario_extra.flit_with_classifiers
           (VArray [Scenario.str "Programming Language :: Python :: 3.6"])
           ["Programming Language :: Python :: 3.7";
            "Programming Language :: Python :: 3.8"]
           [mkVersion 3 7 None; mkVersion 3 8 None]);
    try reflexivity.
  discriminate.
Defined.

(** X8.  A file object that is neither a [StringIO] nor a [TextIOWrapper]
    is not read at all: [load_toml] returns none, and each operation stops
    with an [AttributeError], the stream and the error stream untouched. *)
Theorem unsupported_handle known ppr gv uc vs w :
  load_toml (FileObject OtherTextIO) w = (Ok None, w) /\
  get_supported_python_versions gv (FileObject OtherTextIO) w
  = (Raise AttributeError, w) /\
  get_python_requires ppr (FileObject OtherTextIO) w
  = (Raise AttributeError, w) /\
  update_supported_python_versions uc (FileObject OtherTextIO) vs w
  = (Raise AttributeError, w) /\
  update_python_requires known (FileObject OtherTextIO) vs w
  = (Raise AttributeError, w).
Proof. repeat split. Qed.

(* ================================================================== *)
(** ** Documents that no detector accepts *)

(** X9.  The fields of a document that no detector accepts are ignored: the
    extract operations find nothing ([get_python_requires] with its
    diagnostic), the update operations return none, and the two rewriting
    functions leave the table alone, one returning none and the other the
    empty list. *)
Theorem undetected_document known ppr gv uc f w d vs :
  holds f w d ->
  is_poetry_toml d = Ok false ->
  is_setuptools_or_flit d = Ok false ->
  get_supported_python_versions gv f w = (Ok [], after_load f w) /\
  get_python_requires ppr f w
  = (Ok None,
     with_stderr (after_load f w) (stderr w ++ [msg_not_a_string])%list) /\
  update_python_requires known f vs w = (Ok None, after_load f w) /\
  update_supported_python_versions uc f vs w
  = (Ok None,
     with_stderr (after_load f w) (stderr w ++ [msg_not_an_array])%list) /\
  (forall v,
     update_classifiers_of_table d v = Ok None /\
     update_python_requires_of_table d v = Ok (Some NoLines)).
Proof.
  intros H Hp Ho.
  assert (classifiers_of_table d = Ok (VArray [])) as Hc.
  { unfold classifiers_of_table. rewrite Hp, Ho. reflexivity. }
  assert (python_requires_of_table d = Ok None) as Hr.
  { unfold python_requires_of_table. rewrite Hp, Ho. reflexivity. }
  split; [apply (extract_classifiers_falsy gv f w d _ H Hc); reflexivity|].
  split; [apply (extract_requires_refused ppr f w d None H Hr); left;
          reflexivity|].
  split; [apply (update_requires_nothing known f w d vs H Hr)|].
  split; [apply (update_classifiers_refused uc f w d _ vs H Hc); right;
          reflexivity|].
  intros v.
  unfold update_classifiers_of_table, update_python_requires_of_table,
    update_table.
  rewrite Hp. cbn [rbind fst snd]. rewrite Ho. split; reflexivity.
Qed.

Lemma undetected_document_witness :
  get_path [PROJECT] PYTHON_REQUIRES Scenario_extra.no_build_tool
  = Some (Scenario.str ">=3.6") /\
  get_supported_python_versions Scenario.no_versions
    (Filename PYPROJECT_TOML) (Scenario.on_disk Scenario_extra.no_build_tool)
  = (Ok [], Scenario.on_disk Scenario_extra.no_build_tool) /\
  update_python_requires (Scenario.known_up_to 7) (Filename PYPROJECT_TOML)
    [Scenario_both.v37] (Scenario.on_disk Scenario_extra.no_build_tool)
  = (Ok None, Scenario.on_disk Scenario_extra.no_build_tool).
Proof.
  destruct (undetected_document (Scenario.known_up_to 7) Scenario.no_parse
              Scenario.no_versions Scenario.no_update
              (Filename PYPROJECT_TOML)
              (Scenario.on_disk Scenario_extra.no_build_tool)
              Scenario_extra.no_build_tool [Scenario_both.v37]
              eq_refl eq_refl eq_refl) as [Hg [_ [Hu _]]].
  split; [reflexivity|]. split; [exact Hg | exact Hu].
Defined.

(* ================================================================== *)
(** ** Build requirements given as a string *)

Lemma is_infix_in_a_character a b rest c :
  is_infix (String a (String b rest)) (String c EmptyString) = false.
Proof.
  cbn [is_infix String.prefix].
  destruct (ascii_dec a c); reflexivity.
Qed.

Lemma any_in_characters a b rest s :
  any_in (String a (String b rest)) (map (VString false) (chars s))
  = Ok false.
Proof.
  induction s as [|c s IH]; [reflexivity|].
  cbn [chars map any_in py_in]. rewrite is_infix_in_a_character, IH.
  reflexivity.
Qed.

(** X10.  When [build-system.requires] is a string and not an array, the
    detectors go through its characters and find no marker in it, whatever
    the string says. *)
Theorem requires_as_a_string d bs ml s :
  lookup TOOL d = None ->
  lookup BUILD_SYSTEM d = Some (VTable bs) ->
  lookup BUILD_BACKEND bs = None ->
  lookup REQUIRES bs = Some (VString ml s) ->
  is_poetry_toml d = Ok false /\
  is_setuptools_toml d = Ok false /\
  is_flit_toml d = Ok false.
Proof.
  intros Ht Hb Hbb Hr.
  unfold is_poetry_toml, is_setuptools_toml, is_flit_toml, doc_get, doc_has,
    doc_getitem, py_getitem.
  rewrite Ht, Hb. cbn [py_get rbind py_in lookup]. rewrite Hbb, Hr.
  cbn [rbind py_in py_iter is_infix String.prefix orb].
  unfold POETRY, SETUPTOOLS, FLIT. rewrite !any_in_characters.
  repeat split.
Qed.

Lemma requires_as_a_string_witness :
  is_poetry_toml Scenario_extra.requires_is_a_string = Ok false /\
  is_setuptools_toml Scenario_extra.requires_is_a_string = Ok false /\
  is_flit_toml Scenario_extra.requires_is_a_string = Ok false.
Proof.
  apply (requires_as_a_string Scenario_extra.requires_is_a_string
           [(REQUIRES, Scenario.str "setuptools")] false "setuptools");
    reflexivity.
Defined.

(* ================================================================== *)
(** ** Documents of the expected shape *)

Lemma any_in_strings marker items :
  forallb isinstance_str items = true ->
  any_in marker items = Ok (existsb (mentions marker) items).
Proof.
  induction items as [|x items IH]; [reflexivity|].
  cbn [forallb]. intros H. apply andb_prop in H. destruct H as [Hx Hi].
  destruct x; try discriminate Hx.
  cbn [any_in py_in existsb mentions]. rewrite (IH Hi).
  unfold or_else. cbn [rbind]. destruct (is_infix marker s); reflexivity.
Qed.

Lemma check_tool_returns marker d :
  tool_well_shaped d = true -> exists a, check_tool marker d = Ok a.
Proof.
  unfold tool_well_shaped, check_tool, doc_get. intros H.
  destruct (lookup TOOL d) as [[| | | | |tool]|]; try discriminate H;
    eexists; reflexivity.
Qed.

Lemma check_backend_returns marker d :
  build_system_well_shaped d = true ->
  exists b, check_backend marker d = Ok b.
Proof.
  unfold build_system_well_shaped, check_backend, doc_has, doc_getitem,
    py_getitem.
  intros H.
  destruct (lookup BUILD_SYSTEM d) as [[| | | | |bs]|];
    try discriminate H; [|eexists; reflexivity].
  apply andb_prop in H. destruct H as [H _]. cbn [rbind py_get].
  destruct (lookup BUILD_BACKEND bs) as [[| | | | |]|];
    try discriminate H; eexists; reflexivity.
Qed.

Lemma check_requires_returns marker d :
  build_system_well_shaped d = true ->
  exists c, check_requires marker d = Ok c.
Proof.
  unfold build_system_well_shaped, check_requires, doc_has, doc_getitem,
    py_getitem.
  intros H.
  destruct (lookup BUILD_SYSTEM d) as [[| | | | |bs]|];
    try discriminate H; [|eexists; reflexivity].
  apply andb_prop in H. destruct H as [_ H]. cbn [rbind py_get].
  destruct (lookup REQUIRES bs) as [[| | | |items|]|];
    try discriminate H.
  - cbn [rbind py_iter]. rewrite (any_in_strings marker items H).
    eexists. reflexivity.
  - eexists. reflexivity.
Qed.

Lemma poetry_readers_return d :
  tool_well_shaped d = true ->
  (exists c, _get_poetry_classifiers d = Ok c) /\
  (exists r, _get_poetry_python_requires d = Ok r).
Proof.
  unfold tool_well_shaped, table_or_absent, _get_poetry_classifiers,
    _get_poetry_python_requires, doc_has, doc_getitem.
  cbn [py_getitem]. intros H.
  destruct (lookup TOOL d) as [[| | | | |tool]|]; try discriminate H;
    cbn [negb rbind py_in py_getitem];
    [|split; eexists; reflexivity].
  destruct (lookup POETRY tool) as [[| | | | |poetry]|];
    try discriminate H; cbn [negb rbind py_in py_getitem];
    [|split; eexists; reflexivity].
  split.
  - destruct (lookup CLASSIFIERS poetry); cbn [negb rbind];
      eexists; reflexivity.
  - destruct (lookup DEPENDENCIES poetry) as [[| | | | |deps]|];
      try discriminate H; cbn [negb rbind py_in py_getitem];
      [|eexists; reflexivity].
    destruct (lookup PYTHON deps); cbn [negb rbind]; eexists; reflexivity.
Qed.

Lemma project_readers_return d :
  table_or_absent (lookup PROJECT d) = true ->
  (exists c, _get_setuptools_flit_classifiers d = Ok c) /\
  (exists r, _get_setuptools_flit_python_requires d = Ok r).
Proof.
  unfold table_or_absent, _get_setuptools_flit_classifiers,
    _get_setuptools_flit_python_requires, doc_has, doc_getitem.
  cbn [py_getitem]. intros H.
  destruct (lookup PROJECT d) as [[| | | | |project]|]; try discriminate H;
    cbn [negb rbind py_in py_getitem];
    [|split; eexists; reflexivity].
  split.
  - destruct (lookup CLASSIFIERS project); cbn [negb rbind];
      eexists; reflexivity.
  - destruct (lookup PYTHON_REQUIRES project); cbn [negb rbind];
      eexists; reflexivity.
Qed.

Lemma detect_returns marker d :
  tool_well_shaped d = true ->
  build_system_well_shaped d = true ->
  exists a b c,
    check_tool marker d = Ok a /\
    check_backend marker d = Ok b /\
    check_requires marker d = Ok c /\
    detect_tool_first marker d = Ok (a || b || c) /\
    detect_tool_last marker d = Ok (a || b || c).
Proof.
  intros Ht Hb.
  destruct (check_tool_returns marker d Ht) as [a Ha].
  destruct (check_backend_returns marker d Hb) as [b Hbk].
  destruct (check_requires_returns marker d Hb) as [c Hc].
  exists a, b, c. unfold detect_tool_first, detect_tool_last.
  rewrite Ha, Hbk, Hc. repeat split.
  - apply in_order_all_ok.
  - destruct a, b, c; reflexivity.
Qed.

(** X11.  On a document of the expected shape nothing raises: each detector
    returns the disjunction of its three tests, and the classifiers and
    the python requirement are extracted. *)
Theorem well_shaped_never_raises d :
  well_shaped d = true ->
  (exists a b c,
     check_tool POETRY d = Ok a /\ check_backend POETRY d = Ok b /\
     check_requires POETRY d = Ok c /\
     is_poetry_toml d = Ok (a || b || c)) /\
  (exists a b c,
     check_tool SETUPTOOLS d = Ok a /\ check_backend SETUPTOOLS d = Ok b /\
     check_requires SETUPTOOLS d = Ok c /\
     is_setuptools_toml d = Ok (a || b || c)) /\
  (exists a b c,
     check_tool FLIT d = Ok a /\ check_backend FLIT d = Ok b /\
     check_requires FLIT d = Ok c /\
     is_flit_toml d = Ok (a || b || c)) /\
  (exists c, classifiers_of_table d = Ok c) /\
  (exists r, python_requires_of_table d = Ok r).
Proof.
  unfold well_shaped. intros H.
  apply andb_prop in H. destruct H as [H Hb].
  apply andb_prop in H. destruct H as [Ht Hp].
  destruct (detect_returns POETRY d Ht Hb)
    as [a1 [b1 [c1 [Ha1 [Hb1 [Hc1 [Hd1 _]]]]]]].
  destruct (detect_returns SETUPTOOLS d Ht Hb)
    as [a2 [b2 [c2 [Ha2 [Hb2 [Hc2 [_ Hd2]]]]]]].
  destruct (detect_returns FLIT d Ht Hb)
    as [a3 [b3 [c3 [Ha3 [Hb3 [Hc3 [Hd3 _]]]]]]].
  rewrite <- is_poetry_toml_in_order in Hd1.
  rewrite <- is_setuptools_toml_in_order in Hd2.
  rewrite <- is_flit_toml_in_order in Hd3.
  split; [exists a1, b1, c1; repeat split; assumption|].
  split; [exists a2, b2, c2; repeat split; assumption|].
  split; [exists a3, b3, c3; repeat split; assumption|].
  destruct (poetry_readers_return d Ht) as [[pc Hpc] [pr Hpr]].
  destruct (project_readers_return d Hp) as [[sc Hsc] [sr Hsr]].
  unfold classifiers_of_table, python_requires_of_table,
    is_setuptools_or_flit.
  rewrite Hd1, Hd2, Hd3, Hpc, Hpr, Hsc, Hsr.
  split;
    destruct (a1 || b1 || c1), (a2 || b2 || c2), (a3 || b3 || c3);
    eexists; reflexivity.
Qed.

Lemma well_shaped_never_raises_witness :
  (exists c, classifiers_of_table Scenario_extra.poetry_project = Ok c) /\
  (exists r, python_requires_of_table Scenario_extra.poetry_project = Ok r).
Proof.
  destruct (well_shaped_never_raises Scenario_extra.poetry_project eq_refl)
    as [_ [_ [_ H]]].
  exact H.
Defined.

(* ================================================================== *)
(** ** What is written to the error stream *)

Lemma keeps_stderr_get_classifiers f :
  keeps_stderr (_get_pyproject_toml_classifiers f).
Proof.
  unfold _get_pyproject_toml_classifiers.
  apply keeps_stderr_bind; [apply keeps_stderr_load_toml|].
  intros t. apply keeps_stderr_on_table.
Qed.

Lemma keeps_stderr_update_classifiers f v :
  keeps_stderr (_update_pyproject_toml_classifiers f v).
Proof.
  unfold _update_pyproject_toml_classifiers.
  apply keeps_stderr_bind; [apply keeps_stderr_load_toml|].
  intros t. apply keeps_stderr_on_table.
Qed.

Lemma stderr_after_warn {A} (a : A) msg w :
  stderr (snd ((warn msg ;; ret a) w)) = (stderr w ++ [msg])%list.
Proof. reflexivity. Qed.

Lemma stderr_after_emit {A} (r : list string * result A) w :
  stderr (snd (emit r w)) = (stderr w ++ fst r)%list.
Proof. reflexivity. Qed.

(** X12.  Whatever the source holds, [update_python_requires] writes no
    diagnostic; [get_supported_python_versions] and
    [update_supported_python_versions] write nothing or the one line "The
    value specified for classifiers is not an array"; and
    [get_python_requires] writes nothing, the one line "The value
    specified for python dependency is not a string", or what
    [parse_python_requires] reports on the text of the field. *)
Theorem diagnostics_written known ppr gv uc f vs w :
  stderr (snd (update_python_requires known f vs w)) = stderr w /\
  (stderr (snd (get_supported_python_versions gv f w)) = stderr w \/
   stderr (snd (get_supported_python_versions gv f w))
   = (stderr w ++ [msg_not_an_array])%list) /\
  (stderr (snd (update_supported_python_versions uc f vs w)) = stderr w \/
   stderr (snd (update_supported_python_versions uc f vs w))
   = (stderr w ++ [msg_not_an_array])%list) /\
  (stderr (snd (get_python_requires ppr f w)) = stderr w \/
   stderr (snd (get_python_requires ppr f w))
   = (stderr w ++ [msg_not_a_string])%list \/
   exists s,
     stderr (snd (get_python_requires ppr f w))
     = (stderr w ++ fst (ppr s))%list).
Proof.
  split; [apply update_python_requires_is_silent|].
  split; [|split].
  - unfold get_supported_python_versions, bind.
    pose proof (keeps_stderr_get_classifiers f w) as Hw.
    destruct (_get_pyproject_toml_classifiers f w) as [[c|e] w1];
      cbn [snd] in *; [|left; exact Hw].
    destruct (truthy c); cbn [negb]; [|left; exact Hw].
    destruct (isinstance_list c); cbn [negb].
    + left. exact Hw.
    + right. unfold warn, ret. cbn [snd stderr]. rewrite Hw. reflexivity.
  - unfold update_supported_python_versions, bind.
    pose proof (keeps_stderr_get_classifiers f w) as Hw.
    destruct (_get_pyproject_toml_classifiers f w) as [[c|e] w1];
      cbn [snd] in *; [|left; exact Hw].
    destruct (negb (isinstance_list c) || negb (truthy c)).
    + right. unfold warn, ret. cbn [snd stderr]. rewrite Hw. reflexivity.
    + left. unfold lift.
      destruct (uc c vs) as [new|e]; cbn [snd]; [|exact Hw].
      rewrite (keeps_stderr_update_classifiers f _ w1). exact Hw.
  - unfold get_python_requires, bind.
    pose proof (keeps_stderr_get_requires f w) as Hw.
    destruct (_get_pyproject_toml_python_requires f w) as [[r|e] w1];
      cbn [snd] in *; [|left; exact Hw].
    destruct (negb (opt_truthy r) || negb (opt_isinstance_str r)).
    + right. left. unfold warn, ret. cbn [snd stderr]. rewrite Hw.
      reflexivity.
    + destruct (as_str r) as [s|]; [|left; exact Hw].
      right. right. exists s. unfold emit. cbn [snd stderr]. rewrite Hw.
      reflexivity.
Qed.

(* ================================================================== *)
(** ** A requirement that is not a usable string *)

(** X13.  When the requirement is the empty string, [get_python_requires]
    reports it as not a string and returns none, while
    [update_python_requires] goes on, encodes with the separator [", "]
    and no space, and returns the rewritten document. *)
Theorem empty_requirement known ppr f w d bp ml vs new :
  at_start f w d ->
  is_poetry_toml d = Ok bp ->
  is_setuptools_or_flit d = Ok (negb bp) ->
  python_requires_of_table d = Ok (Some (VString ml "")) ->
  compute_python_requires known vs ", " "" = Ok new ->
  get_python_requires ppr f w
  = (Ok None,
     with_stderr (after_load f w) (stderr w ++ [msg_not_a_string])%list) /\
  exists d',
    update_python_requires known f vs w
    = (Ok (Some (DumpsSplit d')), after_load f (rewound f w)) /\
    python_requires_of_table d' = Ok (Some (VString false new)).
Proof.
  intros Hs Hp Ho Hr Hnew. split.
  - apply (extract_requires_refused ppr f w d _ (proj1 Hs) Hr). left.
    reflexivity.
  - destruct (one_sided_round_trip_requires d bp _ (VString false new)
                Hp Ho Hr) as [d' [Hu Hx]].
    exists d'. split; [|exact Hx].
    rewrite (update_python_requires_str known f w d ml "" vs (proj1 Hs) Hr).
    change (comma_style "") with ", ". change (space_style "") with "".
    rewrite Hnew.
    rewrite (update_requires_holds f _ d _ (holds_rewound f w d Hs)).
    rewrite Hu. reflexivity.
Qed.

Lemma empty_requirement_witness :
  get_python_requires Scenario.no_parse (FileObject StringIO)
    (Scenario.fresh_stream
       (Scenario_requires.project_requiring (Scenario.str "")))
  = (Ok None,
     with_stderr
       (after_load (FileObject StringIO)
          (Scenario.fresh_stream
             (Scenario_requires.project_requiring (Scenario.str ""))))
       [msg_not_a_string]) /\
  exists d',
    update_python_requires (Scenario.known_up_to 7) (FileObject StringIO)
      [Scenario_both.v37]
      (Scenario.fresh_stream
         (Scenario_requires.project_requiring (Scenario.str "")))
    = (Ok (Some (DumpsSplit d')),
       after_load (FileObject StringIO)
         (rewound (FileObject StringIO)
            (Scenario.fresh_stream
               (Scenario_requires.project_requiring (Scenario.str ""))))) /\
    python_requires_of_table d' = Ok (Some (VString false ">=3.7")).
Proof.
  apply (empty_requirement (Scenario.known_up_to 7) Scenario.no_parse
           (FileObject StringIO)
           (Scenario.fresh_stream
              (Scenario_requires.project_requiring (Scenario.str "")))
           (Scenario_requires.project_requiring (Scenario.str ""))
           false false [Scenario_both.v37] ">=3.7");
    try reflexivity.
  split; reflexivity.
Defined.

(** X14.  When the requirement is a number, a boolean, a date or a float,
    [get_python_requires] reports it and returns none, while
    [update_python_requires] stops with a [TypeError] after its first
    read, before any [seek(0)], and writes no diagnostic. *)
Theorem scalar_requirement known ppr f w d v vs :
  holds f w d ->
  python_requires_of_table d = Ok (Some v) ->
  (exists z, v = VInteger z) \/ (exists b, v = VBool b) \/
  (exists t, v = VOther t) ->
  get_python_requires ppr f w
  = (Ok None,
     with_stderr (after_load f w) (stderr w ++ [msg_not_a_string])%list) /\
  update_python_requires known f vs w = (Raise TypeError, after_load f w).
Proof.
  intros H Hr Hv. split.
  - apply (extract_requires_refused ppr f w d _ H Hr). right.
    destruct Hv as [[z ->]|[[b ->]|[t ->]]]; reflexivity.
  - unfold update_python_requires, bind at 1.
    rewrite (get_python_requires_holds _ _ _ H), Hr.
    destruct Hv as [[z ->]|[[b ->]|[t ->]]]; reflexivity.
Qed.

Lemma scalar_requirement_witness :
  update_python_requires (Scenario.known_up_to 7) (FileObject StringIO)
    [Scenario_both.v37]
    (Scenario.fresh_stream
       (Scenario_requires.project_requiring (VInteger 3)))
  = (Raise TypeError,
     after_load (FileObject StringIO)
       (Scenario.fresh_stream
          (Scenario_requires.project_requiring (VInteger 3)))).
Proof.
  apply (scalar_requirement (Scenario.known_up_to 7) Scenario.no_parse
           (FileObject StringIO)
           (Scenario.fresh_stream
              (Scenario_requires.project_requiring (VInteger 3)))
           (Scenario_requires.project_requiring (VInteger 3))
           (VInteger 3) [Scenario_both.v37] eq_refl eq_refl).
  left. exists 3%Z. reflexivity.
Defined.

(* ================================================================== *)
(** ** Entries of the build requirements that are not strings *)

Lemma any_in_hit marker before ml s rest :
  forallb isinstance_str before = true ->
  is_infix marker s = true ->
  any_in marker (before ++ VString ml s :: rest)%list = Ok true.
Proof.
  intros Hb Hs. induction before as [|x before IH].
  - cbn [app any_in py_in]. rewrite Hs. reflexivity.
  - cbn [forallb] in Hb. apply andb_prop in Hb. destruct Hb as [Hx Hb].
    destruct x; try discriminate Hx.
    cbn [app any_in py_in]. fold (app before (VString ml s :: rest)).
    rewrite (IH Hb). unfold or_else. cbn [rbind].
    destruct (is_infix marker s0); reflexivity.
Qed.

Lemma detectors_on_requires d bs items :
  lookup TOOL d = None ->
  lookup BUILD_SYSTEM d = Some (VTable bs) ->
  lookup BUILD_BACKEND bs = None ->
  lookup REQUIRES bs = Some (VArray items) ->
  is_poetry_toml d = any_in POETRY items /\
  is_setuptools_toml d = any_in SETUPTOOLS items /\
  is_flit_toml d = any_in FLIT items.
Proof.
  intros Ht Hb Hbb Hr.
  unfold is_poetry_toml, is_setuptools_toml, is_flit_toml, doc_get, doc_has,
    doc_getitem, py_getitem.
  rewrite Ht, Hb. cbn [py_get rbind py_in lookup]. rewrite Hbb, Hr.
  cbn [rbind py_in py_iter is_infix String.prefix orb].
  repeat split.
  - destruct (any_in POETRY items) as [[|]|]; reflexivity.
  - destruct (any_in SETUPTOOLS items) as [[|]|]; reflexivity.
  - destruct (any_in FLIT items) as [[|]|]; reflexivity.
Qed.

(** X15.  The search through [build-system.requires] stops at the first
    entry that mentions the marker, so entries after it are not looked
    at, whatever they are; a number as the first entry is a
    [TypeError]. *)
Theorem requires_are_searched_in_order d bs items :
  lookup TOOL d = None ->
  lookup BUILD_SYSTEM d = Some (VTable bs) ->
  lookup BUILD_BACKEND bs = None ->
  lookup REQUIRES bs = Some (VArray items) ->
  (forall before ml s rest,
     items = (before ++ VString ml s :: rest)%list ->
     forallb isinstance_str before = true ->
     (is_infix POETRY s = true -> is_poetry_toml d = Ok true) /\
     (is_infix SETUPTOOLS s = true -> is_setuptools_toml d = Ok true) /\
     (is_infix FLIT s = true -> is_flit_toml d = Ok true)) /\
  (forall z rest,
     items = VInteger z :: rest ->
     is_poetry_toml d = Raise TypeError /\
     is_setuptools_toml d = Raise TypeError /\
     is_flit_toml d = Raise TypeError).
Proof.
  intros Ht Hb Hbb Hr.
  destruct (detectors_on_requires d bs items Ht Hb Hbb Hr)
    as [-> [-> ->]].
  split.
  - intros before ml s rest -> Hbefore.
    repeat split; intros Hs; apply any_in_hit; assumption.
  - intros z rest ->. repeat split.
Qed.

Lemma requires_are_searched_in_order_witness :
  is_setuptools_toml
    [(BUILD_SYSTEM,
      VTable [(REQUIRES,
               VArray [Scenario.str "wheel"; Scenario.str "setuptools>=61";
                       VInteger 3])])]
  = Ok true /\
  is_setuptools_toml
    [(BUILD_SYSTEM,
      VTable [(REQUIRES,
               VArray [VInteger 3; Scenario.str "setuptools>=61"])])]
  = Raise TypeError.
Proof.
  split.
  - destruct (requires_are_searched_in_order
                [(BUILD_SYSTEM,
                  VTable [(REQUIRES,
                           VArray [Scenario.str "wheel";
                                   Scenario.str "setuptools>=61";
                                   VInteger 3])])]
                [(REQUIRES,
                  VArray [Scenario.str "wheel"; Scenario.str "setuptools>=61";
                          VInteger 3])]
                [Scenario.str "wheel"; Scenario.str "setuptools>=61";
                 VInteger 3]
                eq_refl eq_refl eq_refl eq_refl) as [H _].
    destruct (H [Scenario.str "wheel"] false "setuptools>=61" [VInteger 3]
                eq_refl eq_refl) as [_ [Hs _]].
    apply Hs. reflexivity.
  - destruct (requires_are_searched_in_order
                [(BUILD_SYSTEM,
                  VTable [(REQUIRES,
                           VArray [VInteger 3;
                                   Scenario.str "setuptools>=61"])])]
                [(REQUIRES,
                  VArray [VInteger 3; Scenario.str "setuptools>=61"])]
                [VInteger 3; Scenario.str "setuptools>=61"]
                eq_refl eq_refl eq_refl eq_refl) as [_ H].
    destruct (H 3%Z [Scenario.str "setuptools>=61"] eq_refl) as [_ [Hs _]].
    exact Hs.
Defined.

(* ================================================================== *)
(** ** A source that cannot be loaded *)

(** X16.  When [load_toml] raises (the file cannot be opened, or tomlkit
    cannot parse the text), each operation stops with the same exception
    in the same world: nothing is recovered and nothing is written to the
    error stream. *)
Theorem load_failure_propagates known ppr gv uc f vs w e w1 :
  load_toml f w = (Raise e, w1) ->
  stderr w1 = stderr w /\
  get_supported_python_versions gv f w = (Raise e, w1) /\
  get_python_requires ppr f w = (Raise e, w1) /\
  update_supported_python_versions uc f vs w = (Raise e, w1) /\
  update_python_requires known f vs w = (Raise e, w1).
Proof.
  intros H. split.
  - pose proof (keeps_stderr_load_toml f w) as Hw. rewrite H in Hw.
    exact Hw.
  - unfold get_supported_python_versions, get_python_requires,
      update_supported_python_versions, update_python_requires,
      _get_pyproject_toml_classifiers, _get_pyproject_toml_python_requires,
      bind.
    rewrite H. repeat split.
Qed.

(** No [pyproject.toml] on disk, and a stream whose text does not
    parse. *)
Lemma load_failure_propagates_witness :
  get_python_requires Scenario.no_parse (Filename PYPROJECT_TOML)
    (mkWorld [] (mkStream (Ok []) (Ok []) []) [])
  = (Raise OSError, mkWorld [] (mkStream (Ok []) (Ok []) []) []) /\
  update_python_requires (Scenario.known_up_to 7) (FileObject StringIO)
    [Scenario_both.v37]
    (mkWorld [] (mkStream (Raise ParseError) (Raise ParseError) []) [])
  = (Raise ParseError,
     mkWorld [] (mkStream (Raise ParseError) (Ok []) [Read]) []).
Proof.
  split.
  - apply (load_failure_propagates (Scenario.known_up_to 7)
             Scenario.no_parse Scenario.no_versions Scenario.no_update
             (Filename PYPROJECT_TOML) [Scenario_both.v37]
             (mkWorld [] (mkStream (Ok []) (Ok []) []) []) OSError
             (mkWorld [] (mkStream (Ok []) (Ok []) []) [])).
    reflexivity.
  - apply (load_failure_propagates (Scenario.known_up_to 7)
             Scenario.no_parse Scenario.no_versions Scenario.no_update
             (FileObject StringIO) [Scenario_both.v37]
             (mkWorld []
                (mkStream (Raise ParseError) (Raise ParseError) []) [])
             ParseError
             (mkWorld [] (mkStream (Raise ParseError) (Ok []) [Read]) [])).
    reflexivity.
Defined.

(* ================================================================== *)
(** ** Multi-line strings, rewritten *)



